(** * YAML entity loaders of azure-ai-ml: [entities/_load_functions.py]

    A shallow embedding of [load_common], [_try_load_yaml_dict],
    [_load_common_raising_marshmallow_error], the fifteen [load_F] wrappers
    and [load_component], followed by the properties the specification
    states about them.

    Python values are an inductive type, the keyword bag [**kwargs] is a
    finite map, and the effects of a call (warnings, calls into the YAML
    reader, the entity classes and the remote client) are recorded in a
    trace next to the call's outcome, which is a returned value or a
    raised exception. *)

From Stdlib Require Import Strings.Ascii.
From stdpp Require Import base strings gmap list.

Set Warnings "-register-all".
Open Scope string_scope.
Open Scope list_scope.

(** ** Python values *)

(** The values the loaders see: sources (strings, path objects, streams),
    parsed YAML documents, override lists, entities and clients. An object
    of any other class is [PyObj] with its class name and its attributes. *)
Inductive pyval : Type :=
| PyNone
| PyBool (b : bool)
| PyInt (z : Z)
| PyStr (s : string)
| PyPathLike (p : string)
| PyList (xs : list pyval)
| PyDict (d : gmap string pyval)
| PyObj (class_name : string) (attrs : gmap string pyval).

(** [x is None] *)
Definition is_none (v : pyval) : bool :=
  match v with PyNone => true | _ => false end.

(** [bool(x)]: the truth value Python's [if x] and [x or y] test. Objects of
    a class without [__bool__] or [__len__] (path objects, streams, clients)
    are true. *)
Definition truthy (v : pyval) : bool :=
  match v with
  | PyNone => false
  | PyBool b => b
  | PyInt z => negb (z =? 0)%Z
  | PyStr s => negb (String.eqb s "")
  | PyPathLike _ => true
  | PyList xs => match xs with [] => false | _ => true end
  | PyDict d => match map_to_list d with [] => false | _ => true end
  | PyObj _ _ => true
  end.

(** [isinstance(x, (str, PathLike))] *)
Definition isinstance_str_or_PathLike (v : pyval) : bool :=
  match v with PyStr _ | PyPathLike _ => true | _ => false end.

(** [isinstance(x, dict)] *)
Definition isinstance_dict (v : pyval) : bool :=
  match v with PyDict _ => true | _ => false end.

(** [x.name]: [None] stands for the [AttributeError] of an object without
    that attribute. The loaders read it only from values that are neither
    strings nor path objects. *)
Definition getattr_name (v : pyval) : option pyval :=
  match v with
  | PyObj _ attrs => attrs !! "name"
  | _ => None
  end.

(** [type(x).__name__] with its module, as [str(type(x))] prints it. *)
Definition type_name (v : pyval) : string :=
  match v with
  | PyNone => "NoneType"
  | PyBool _ => "bool"
  | PyInt _ => "int"
  | PyStr _ => "str"
  | PyPathLike _ => "pathlib.PosixPath"
  | PyList _ => "list"
  | PyDict _ => "dict"
  | PyObj c _ => c
  end.

(** [str(type(x))], what [msg.format(type(x))] inserts. *)
Definition type_repr (v : pyval) : string :=
  "<class '" +:+ type_name v +:+ "'>".

(** ** Entity classes *)

(** The classes the module imports and hands to [load_common], and the
    concrete classes [_resolve_cls_and_type] may answer with. *)
Inductive pycls : Type :=
| Job | Workspace | Registry | Datastore | Code | Compute | Component
| Model | Data | Environment | OnlineDeployment | BatchDeployment
| OnlineEndpoint | BatchEndpoint | WorkspaceConnection | JobSchedule
| CommandComponent | ParallelComponent | PipelineComponent
| OtherClass (name : string).

(** ** Exceptions *)

(** The members of [azure.ai.ml._ml_exceptions] the module names. *)
Inductive ErrorTarget : Type :=
| COMPONENT
| TargetOf (name : string).

Inductive ErrorCategory : Type := USER_ERROR | SYSTEM_ERROR | UNKNOWN.

Inductive ValidationErrorType : Type :=
| CANNOT_PARSE | MISSING_VALUE | INVALID_VALUE | GENERIC.

(** [ValidationException(message=, no_personal_data_message=, target=,
    error_category=, error_type=)] *)
Record ValidationException : Type := mkValidationException {
  message : string;
  no_personal_data_message : string;
  target : ErrorTarget;
  error_category : ErrorCategory;
  error_type : ValidationErrorType
}.

Inductive exn : Type :=
| ExValidationException (e : ValidationException)
  (** [marshmallow.ValidationError], with its messages *)
| ExValidationError (messages : pyval)
  (** what [ValidationResult.try_raise] raises, with the arguments it got *)
| ExSchemaValidation (validation_result : pyval) (error_target : ErrorTarget)
    (schema : pyval) (additional_message : string)
  (** any other exception: I/O errors, [TypeError], errors of the client *)
| ExOther (class_name : string) (msg : string).

(** ** Effects: a trace and an outcome *)

Inductive event : Type :=
| EvWarn (msg : string) (category : string)
| EvLoadYaml (source : pyval)
| EvResolveCls (cls : pycls) (data params_override : pyval)
| EvLoad (cls : pycls) (data yaml_path params_override : pyval)
    (kwargs : gmap string pyval)
| EvFromValidationError (e origin : pyval)
| EvComponentsGet (client name version : pyval).

Inductive result (A : Type) : Type :=
| Return (a : A)
| Raise (e : exn).
Arguments Return {A} a.
Arguments Raise {A} e.

(** A computation: the events it performed, in order, and how it ended. *)
Record M (A : Type) : Type := mkM { trace : list event; outcome : result A }.
Arguments mkM {A} trace outcome.
Arguments trace {A} m.
Arguments outcome {A} m.

Global Instance M_ret : MRet M := λ A a, mkM [] (Return a).

Global Instance M_bind : MBind M := λ A B f m,
  match outcome m with
  | Return a => mkM (trace m ++ trace (f a)) (outcome (f a))
  | Raise e => mkM (trace m) (Raise e)
  end.

(** [raise e] *)
Definition raise {A} (e : exn) : M A := mkM [] (Raise e).

(** A call into code outside the module: the call is recorded, its result
    (a value or an exception) becomes the outcome. *)
Definition call {A} (ev : event) (r : result A) : M A := mkM [ev] r.

(** [warnings.warn(msg, category)] *)
Definition warn (msg category : string) : M unit :=
  mkM [EvWarn msg category] (Return tt).

(** [try: body  except ValidationError as e: handler e] *)
Definition try_except_ValidationError {A} (body : M A) (handler : pyval → M A)
  : M A :=
  match outcome body with
  | Raise (ExValidationError e) =>
      mkM (trace body ++ trace (handler e)) (outcome (handler e))
  | _ => body
  end.

(** ** What the module calls and does not define *)

(** The functions [_load_functions.py] imports or reaches through its
    arguments. Each is a function of its arguments; the ones that read a
    file, build an entity or reach the service may raise. *)
Record Externals : Type := {
  (** [azure.ai.ml._utils.utils.load_yaml] *)
  load_yaml : pyval → result pyval;
  (** [cls._resolve_cls_and_type(data=, params_override=)] *)
  _resolve_cls_and_type : pycls → pyval → pyval → result (pycls * option string);
  (** [cls._load(data=, yaml_path=, params_override=, **kwargs)] *)
  _load : pycls → pyval → pyval → pyval → gmap string pyval → result pyval;
  (** [issubclass(cls, SchemaValidatableMixin)] *)
  issubclass_SchemaValidatableMixin : pycls → bool;
  (** [_ValidationResultBuilder.from_validation_error(e, origin)] *)
  from_validation_error : pyval → pyval → pyval;
  (** [cls._get_validation_error_target()] *)
  _get_validation_error_target : pycls → ErrorTarget;
  (** [cls._create_schema_for_validation_with_base_path()] *)
  _create_schema_for_validation_with_base_path : pycls → pyval;
  (** [client.components.get(name, version)] *)
  components_get : pyval → pyval → pyval → result pyval
}.

(** Modelled from the spec: [ValidationResult.try_raise] is defined in
    [azure.ai.ml.entities._validation], outside the module. The
    specification has it raise a typed exception that carries the error
    target, the schema description and the additional guidance text; the
    validation result it is called on travels with them. *)
Definition try_raise (validation_result : pyval) (error_target : ErrorTarget)
    (schema : pyval) (raise_mashmallow_error : bool)
    (additional_message : string) : M pyval :=
  raise (ExSchemaValidation validation_result error_target schema
           additional_message).

(** ** The module *)

Definition _DEFAULT_RELATIVE_ORIGIN : pyval := PyStr "./".

Definition deprecation_message : string :=
  "the 'path' input for load functions is deprecated. Please use 'source' instead.".

(** The check for the deprecated path input, written out twice in the
    module with the same text: at the head of [load_common] and, "earlier
    than usual", in [load_component].
[[
    if source is None:
        if args is not None and len(args) > 0:
            source = args[0]
        elif path is not None:
            source = path
            warnings.warn(..., DeprecationWarning)
]] *)
Definition resolve_source (source : pyval) (args : option (list pyval))
    (path : pyval) : M pyval :=
  if is_none source then
    match args with
    | Some (a0 :: _) => mret a0
    | _ =>
        if negb (is_none path) then
          warn deprecation_message "DeprecationWarning";; mret path
        else mret source
    end
  else mret source.

(** The origin [load_common] settles on before it reads the source. *)
Definition derive_origin (relative_origin source : pyval) : pyval :=
  if is_none relative_origin then
    if isinstance_str_or_PathLike source then source
    else
      match getattr_name source with
      | Some n => n
      | None => _DEFAULT_RELATIVE_ORIGIN
      end
  else relative_origin.

(** The f-string of the [additional_message] argument. *)
Definition additional_message_of (type_str : option string) : string :=
  match type_str with
  | None => ""
  | Some t =>
      "If you are trying to configure an entity that is not "
      +:+ "of type " +:+ t +:+ ", please specify the correct "
      +:+ "type in the 'type' property."
  end.

Definition empty_yaml_exception : ValidationException :=
  let msg := "Target yaml file is empty" in
  {| message := msg;
     target := COMPONENT;
     no_personal_data_message := msg;
     error_category := USER_ERROR;
     error_type := CANNOT_PARSE |}.

Definition not_dict_exception (yaml_dict : pyval) : ValidationException :=
  let msg t := "Expect dict but get " +:+ t +:+ " after parsing yaml file" in
  {| message := msg (type_repr yaml_dict);
     target := COMPONENT;
     no_personal_data_message := msg (type_repr yaml_dict);
     error_category := USER_ERROR;
     error_type := CANNOT_PARSE |}.

Definition missing_value_exception : ValidationException :=
  let msg := "One of (client, name, version), (source) should be provided." in
  {| message := msg;
     no_personal_data_message := msg;
     target := COMPONENT;
     error_category := USER_ERROR;
     error_type := MISSING_VALUE |}.

(** [params_override or []] *)
Definition or_empty_list (params_override : pyval) : pyval :=
  if truthy params_override then params_override else PyList [].

(** A keyword of the bag that bears one of [names]: passed on with
    [**kwargs] to a call that already gives that parameter, it makes the
    call itself raise [TypeError], before the callee runs. *)
Definition keyword_clash (names : list string) (kwargs : gmap string pyval)
  : bool :=
  existsb (λ k, bool_decide (is_Some (kwargs !! k))) names.

(** The parameters [_load_common_raising_marshmallow_error] receives by
    position in the call [load_common] makes. *)
Definition marshmallow_error_positional : list string :=
  ["cls"; "yaml_dict"; "relative_origin"; "params_override"].

(** The keywords the call of [cls._load] writes out. *)
Definition _load_keywords : list string :=
  ["data"; "yaml_path"; "params_override"].

(** The [TypeError] of a call that gives a parameter twice. The
    interpreter's message names the parameter, the first one met in the
    order of the dict; the model keeps the class and the callee. *)
Definition multiple_values (callee : string) : exn :=
  ExOther "TypeError" (callee +:+ "() got multiple values for argument").

(** No keyword of the bag stands in the way of the entity builder. *)
Definition builder_kwargs_clash (kwargs : gmap string pyval) : bool :=
  keyword_clash marshmallow_error_positional kwargs
  || keyword_clash _load_keywords kwargs.

Section Loaders.

Context (E : Externals).

Definition _try_load_yaml_dict (source : pyval) : M pyval :=
  yaml_dict ← call (EvLoadYaml source) (load_yaml E source);
  if is_none yaml_dict then
    raise (ExValidationException empty_yaml_exception)
  else if negb (isinstance_dict yaml_dict) then
    raise (ExValidationException (not_dict_exception yaml_dict))
  else mret yaml_dict.

(** The body is the call
    [cls._load(data=, yaml_path=, params_override=, **kwargs)]. *)
Definition _load_common_raising_marshmallow_error (cls : pycls)
    (yaml_dict relative_origin params_override : pyval)
    (kwargs : gmap string pyval) : M pyval :=
  if keyword_clash _load_keywords kwargs then
    raise (multiple_values "_load")
  else
    call (EvLoad cls yaml_dict relative_origin params_override kwargs)
         (_load E cls yaml_dict relative_origin params_override kwargs).

(** The call [_load_common_raising_marshmallow_error(cls, yaml_dict,
    relative_origin, params_override, **kwargs)] as [load_common] writes
    it. *)
Definition call_load_common_raising_marshmallow_error (cls : pycls)
    (yaml_dict relative_origin params_override : pyval)
    (kwargs : gmap string pyval) : M pyval :=
  if keyword_clash marshmallow_error_positional kwargs then
    raise (multiple_values "_load_common_raising_marshmallow_error")
  else
    _load_common_raising_marshmallow_error cls yaml_dict relative_origin
      params_override kwargs.

Definition load_common (cls : pycls) (source path relative_origin : pyval)
    (args : option (list pyval)) (params_override : pyval)
    (kwargs : gmap string pyval) : M pyval :=
  source ← resolve_source source args path;
  let relative_origin := derive_origin relative_origin source in
  let params_override := or_empty_list params_override in
  yaml_dict ← _try_load_yaml_dict source;
  '(cls, type_str) ←
    call (EvResolveCls cls yaml_dict params_override)
         (_resolve_cls_and_type E cls yaml_dict params_override);
  try_except_ValidationError
    (call_load_common_raising_marshmallow_error cls yaml_dict
       relative_origin params_override kwargs)
    (λ e,
       if issubclass_SchemaValidatableMixin E cls then
         validation_result ←
           call (EvFromValidationError e relative_origin)
                (Return (from_validation_error E e relative_origin));
         try_raise validation_result
           (_get_validation_error_target E cls)
           (_create_schema_for_validation_with_base_path E cls)
           true
           (additional_message_of type_str);;
         mret PyNone
       else raise (ExValidationError e)).

End Loaders.

(** ** Calls between the functions of the module *)

(** [kwargs.pop(key, None)] *)
Definition kwargs_pop (key : string) (kwargs : gmap string pyval)
  : pyval * gmap string pyval :=
  (default PyNone (kwargs !! key), delete key kwargs).

(** The parameters [load_common] receives by position in every call the
    module makes. *)
Definition load_common_positional : list string :=
  ["cls"; "source"; "path"; "relative_origin"; "args"].

(** A keyword of the bag that names one of them. *)
Definition kwargs_clash (kwargs : gmap string pyval) : bool :=
  existsb (λ k, bool_decide (is_Some (kwargs !! k))) load_common_positional.

(** The call [load_common(cls, source, path, relative_origin, args, **kwargs)]
    as every wrapper writes it. Python binds the keyword [params_override]
    to the parameter of that name and leaves the rest in [load_common]'s own
    [**kwargs]; a keyword that names a parameter already given by position
    is a [TypeError] raised by the call itself, before the body runs. The
    interpreter's message names the first such keyword in the order of the
    dict, which a finite map does not keep, so the model keeps the class of
    the exception and a fixed text. *)
Definition call_load_common (E : Externals) (cls : pycls)
    (source path relative_origin : pyval) (args : list pyval)
    (kwargs : gmap string pyval) : M pyval :=
  if kwargs_clash kwargs then
    raise (ExOther "TypeError" "load_common() got multiple values for argument")
  else
    let '(params_override, kwargs) := kwargs_pop "params_override" kwargs in
    load_common E cls source path relative_origin (Some args) params_override
      kwargs.

Section Wrappers.

Context (E : Externals).

(** The wrappers share one signature: the positional arguments [args], the
    keywords [source], [relative_origin] and [path], each [None] when not
    given, and the keyword bag [kwargs]. *)
Definition load_job (args : list pyval) (source relative_origin path : pyval)
    (kwargs : gmap string pyval) : M pyval :=
  call_load_common E Job source path relative_origin args kwargs.

Definition load_workspace (args : list pyval)
    (source relative_origin path : pyval) (kwargs : gmap string pyval)
  : M pyval :=
  call_load_common E Workspace source path relative_origin args kwargs.

Definition load_registry (args : list pyval)
    (source relative_origin path : pyval) (kwargs : gmap string pyval)
  : M pyval :=
  call_load_common E Registry source path relative_origin args kwargs.

Definition load_datastore (args : list pyval)
    (source relative_origin path : pyval) (kwargs : gmap string pyval)
  : M pyval :=
  call_load_common E Datastore source path relative_origin args kwargs.

Definition load_code (args : list pyval) (source relative_origin path : pyval)
    (kwargs : gmap string pyval) : M pyval :=
  call_load_common E Code source path relative_origin args kwargs.

Definition load_compute (args : list pyval)
    (source relative_origin path : pyval) (kwargs : gmap string pyval)
  : M pyval :=
  call_load_common E Compute source path relative_origin args kwargs.

Definition load_component (args : list pyval)
    (source relative_origin path : pyval) (kwargs : gmap string pyval)
  : M pyval :=
  let '(client, kwargs) := kwargs_pop "client" kwargs in
  let '(name, kwargs) := kwargs_pop "name" kwargs in
  let '(version, kwargs) := kwargs_pop "version" kwargs in
  source ← resolve_source source (Some args) path;
  if truthy source then
    call_load_common E Component source path relative_origin args kwargs
  else if truthy client && truthy name && truthy version then
    call (EvComponentsGet client name version)
         (components_get E client name version)
  else
    raise (ExValidationException missing_value_exception).

Definition load_model (args : list pyval) (source relative_origin path : pyval)
    (kwargs : gmap string pyval) : M pyval :=
  call_load_common E Model source path relative_origin args kwargs.

Definition load_data (args : list pyval) (source relative_origin path : pyval)
    (kwargs : gmap string pyval) : M pyval :=
  call_load_common E Data source path relative_origin args kwargs.

Definition load_environment (args : list pyval)
    (source relative_origin path : pyval) (kwargs : gmap string pyval)
  : M pyval :=
  call_load_common E Environment source path relative_origin args kwargs.

Definition load_online_deployment (args : list pyval)
    (source relative_origin path : pyval) (kwargs : gmap string pyval)
  : M pyval :=
  call_load_common E OnlineDeployment source path relative_origin args kwargs.

Definition load_batch_deployment (args : list pyval)
    (source relative_origin path : pyval) (kwargs : gmap string pyval)
  : M pyval :=
  call_load_common E BatchDeployment source path relative_origin args kwargs.

Definition load_online_endpoint (args : list pyval)
    (source relative_origin path : pyval) (kwargs : gmap string pyval)
  : M pyval :=
  call_load_common E OnlineEndpoint source path relative_origin args kwargs.

Definition load_batch_endpoint (args : list pyval)
    (source relative_origin path : pyval) (kwargs : gmap string pyval)
  : M pyval :=
  call_load_common E BatchEndpoint source path relative_origin args kwargs.

Definition load_workspace_connection (args : list pyval)
    (source relative_origin path : pyval) (kwargs : gmap string pyval)
  : M pyval :=
  call_load_common E WorkspaceConnection source path relative_origin args
    kwargs.

Definition load_schedule (args : list pyval)
    (source relative_origin path : pyval) (kwargs : gmap string pyval)
  : M pyval :=
  call_load_common E JobSchedule source path relative_origin args kwargs.

(** The public loaders, one per entity family. *)
Inductive family : Type :=
| FJob | FWorkspace | FRegistry | FDatastore | FCode | FCompute | FComponent
| FModel | FData | FEnvironment | FOnlineDeployment | FBatchDeployment
| FOnlineEndpoint | FBatchEndpoint | FWorkspaceConnection | FSchedule.

Definition load (F : family)
  : list pyval → pyval → pyval → pyval → gmap string pyval → M pyval :=
  match F with
  | FJob => load_job
  | FWorkspace => load_workspace
  | FRegistry => load_registry
  | FDatastore => load_datastore
  | FCode => load_code
  | FCompute => load_compute
  | FComponent => load_component
  | FModel => load_model
  | FData => load_data
  | FEnvironment => load_environment
  | FOnlineDeployment => load_online_deployment
  | FBatchDeployment => load_batch_deployment
  | FOnlineEndpoint => load_online_endpoint
  | FBatchEndpoint => load_batch_endpoint
  | FWorkspaceConnection => load_workspace_connection
  | FSchedule => load_schedule
  end.

(** The class a wrapper hands to [load_common]. *)
Definition family_class (F : family) : pycls :=
  match F with
  | FJob => Job
  | FWorkspace => Workspace
  | FRegistry => Registry
  | FDatastore => Datastore
  | FCode => Code
  | FCompute => Compute
  | FComponent => Component
  | FModel => Model
  | FData => Data
  | FEnvironment => Environment
  | FOnlineDeployment => OnlineDeployment
  | FBatchDeployment => BatchDeployment
  | FOnlineEndpoint => OnlineEndpoint
  | FBatchEndpoint => BatchEndpoint
  | FWorkspaceConnection => WorkspaceConnection
  | FSchedule => JobSchedule
  end.

Definition is_component (F : family) : bool :=
  match F with FComponent => true | _ => false end.

End Wrappers.

(** ** The entity builder of the specification *)

(** Modelled from the spec: [cls._load], the deserialization routine of each
    entity class, lives with the classes, outside the module. The
    specification has it consume the mapping, the origin and the override
    list, an ordered sequence of mappings from a field path to a value,
    each written over the parsed values at its path, in list order. A field
    path names the fields from the top of the document down, separated by
    dots. *)

(** [path.split(".")] *)
Fixpoint split_on_dot (path : string) : list string :=
  match path with
  | EmptyString => [EmptyString]
  | String c rest =>
      if Ascii.eqb c "."%char then EmptyString :: split_on_dot rest
      else
        match split_on_dot rest with
        | field :: fields => String c field :: fields
        | [] => [String c EmptyString]
        end
  end.

(** Modelled from the spec: the overwrite at a field path. The value is
    written at the end of the path; a level on the way that is missing, or
    holds something that is not a mapping, is replaced by a mapping, the
    override taking precedence over what was parsed. *)
Fixpoint set_path (path : list string) (v : pyval) (d : gmap string pyval)
  : gmap string pyval :=
  match path with
  | [] => d
  | field :: deeper =>
      match deeper with
      | [] => <[field := v]> d
      | _ =>
          let below :=
            match d !! field with Some (PyDict e) => e | _ => ∅ end in
          <[field := PyDict (set_path deeper v below)]> d
      end
  end.

(** The value at a field path, if the path leads to one. *)
Fixpoint get_path (path : list string) (d : gmap string pyval)
  : option pyval :=
  match path with
  | [] => None
  | field :: deeper =>
      match deeper with
      | [] => d !! field
      | _ =>
          match d !! field with
          | Some (PyDict e) => get_path deeper e
          | _ => None
          end
      end
  end.

(** Two field paths part ways at some level: neither leads through the
    other. *)
Fixpoint paths_diverge (p q : list string) : bool :=
  match p, q with
  | f :: p', g :: q' => if String.eqb f g then paths_diverge p' q' else true
  | _, _ => false
  end.

(** Modelled from the spec: one entry of the override list written over the
    document. The specification has the entries hold one field path each;
    an entry with more is written in the order of its keys. *)
Definition apply_override (d e : gmap string pyval) : gmap string pyval :=
  foldl (λ d kv, set_path (split_on_dot kv.1) kv.2 d) d (map_to_list e).

(** Modelled from the spec: the override list written over the document, in
    list order. An entry that is not a mapping breaks the invariant of the
    override list, and there is no result. *)
Definition apply_params_override (data : gmap string pyval)
    (params_override : list pyval) : option (gmap string pyval) :=
  foldl (λ acc o,
           match acc, o with
           | Some d, PyDict e => Some (apply_override d e)
           | _, _ => None
           end)
        (Some data) params_override.

Definition class_name_of (cls : pycls) : string :=
  match cls with
  | Job => "Job" | Workspace => "Workspace" | Registry => "Registry"
  | Datastore => "Datastore" | Code => "Code" | Compute => "Compute"
  | Component => "Component" | Model => "Model" | Data => "Data"
  | Environment => "Environment" | OnlineDeployment => "OnlineDeployment"
  | BatchDeployment => "BatchDeployment" | OnlineEndpoint => "OnlineEndpoint"
  | BatchEndpoint => "BatchEndpoint"
  | WorkspaceConnection => "WorkspaceConnection"
  | JobSchedule => "JobSchedule" | CommandComponent => "CommandComponent"
  | ParallelComponent => "ParallelComponent"
  | PipelineComponent => "PipelineComponent"
  | OtherClass n => n
  end.

(** Modelled from the spec: the entity [cls._load] constructs, an object of
    the resolved class whose fields are the document's with the overrides
    applied. A document or an override list of another shape, or an entry
    of the list that is not a mapping, is an error of the builder. *)
Definition spec_load (cls : pycls) (data yaml_path params_override : pyval)
    (kwargs : gmap string pyval) : result pyval :=
  match data, params_override with
  | PyDict d, PyList ovs =>
      match apply_params_override d ovs with
      | Some fields => Return (PyObj (class_name_of cls) fields)
      | None => Raise (ExOther "TypeError" "override entry is not a mapping")
      end
  | _, _ => Raise (ExOther "TypeError" "data and params_override")
  end.

(** [E] with the builder of the specification in the place of [_load]. *)
Definition with_spec_load (E : Externals) : Externals :=
  {| load_yaml := load_yaml E;
     _resolve_cls_and_type := _resolve_cls_and_type E;
     _load := spec_load;
     issubclass_SchemaValidatableMixin := issubclass_SchemaValidatableMixin E;
     from_validation_error := from_validation_error E;
     _get_validation_error_target := _get_validation_error_target E;
     _create_schema_for_validation_with_base_path :=
       _create_schema_for_validation_with_base_path E;
     components_get := components_get E |}.

(** The single-entry mapping [{path: value}] of an override list. *)
Definition override_entry (kv : string * pyval) : pyval :=
  PyDict {[ kv.1 := kv.2 ]}.

(** The field of an entity at a field path: [entity.a.b] for ["a.b"]. *)
Definition entity_field (path : string) (entity : pyval) : option pyval :=
  match entity with
  | PyObj _ fields => get_path (split_on_dot path) fields
  | _ => None
  end.

(** Modelled from the spec: [load_yaml], the YAML reader of
    [azure.ai.ml._utils.utils], is outside the module. The specification
    has a source be a file path or an open readable stream, and the read
    fail with an I/O error when the file is not found, when the stream is
    not readable, and when there is nothing that can be read; the
    docstrings of the loaders say the same of a path whose file does not
    exist and of an open file that is not readable. [files] holds the
    parsed document of every file by its path, [streams] what every
    readable stream yields. *)
Record Store : Type := {
  files : gmap string pyval;
  streams : pyval → option pyval
}.

Definition spec_load_yaml (st : Store) (source : pyval) : result pyval :=
  match source with
  | PyStr p | PyPathLike p =>
      match files st !! p with
      | Some doc => Return doc
      | None => Raise (ExOther "FileNotFoundError" "No such file or directory")
      end
  | PyObj _ _ =>
      match streams st source with
      | Some doc => Return doc
      | None => Raise (ExOther "OSError" "the stream is not readable")
      end
  | _ => Raise (ExOther "OSError" "the source cannot be read")
  end.

(** [E] with the reader of the specification in the place of [load_yaml]. *)
Definition with_spec_load_yaml (st : Store) (E : Externals) : Externals :=
  {| load_yaml := spec_load_yaml st;
     _resolve_cls_and_type := _resolve_cls_and_type E;
     _load := _load E;
     issubclass_SchemaValidatableMixin := issubclass_SchemaValidatableMixin E;
     from_validation_error := from_validation_error E;
     _get_validation_error_target := _get_validation_error_target E;
     _create_schema_for_validation_with_base_path :=
       _create_schema_for_validation_with_base_path E;
     components_get := components_get E |}.

(** The exceptions of the reader, as against those of the checks
    [_try_load_yaml_dict] makes on what was read. *)
Definition is_io_error (e : exn) : bool :=
  match e with ExOther _ _ => true | _ => false end.

(** ** A small world to run the loaders in *)

Module Demo.

Definition job_doc : gmap string pyval :=
  {[ "type" := PyStr "command"; "command" := PyStr "echo hello" ]}.

Definition bad_doc : gmap string pyval :=
  {[ "type" := PyStr "command"; "bad" := PyBool true ]}.

(** Four files on disk and open streams; nothing else can be read. *)
Definition load_yaml (source : pyval) : result pyval :=
  match source with
  | PyStr s =>
      if String.eqb s "job.yml" then Return (PyDict job_doc)
      else if String.eqb s "bad.yml" then Return (PyDict bad_doc)
      else if String.eqb s "empty.yml" then Return PyNone
      else if String.eqb s "list.yml" then Return (PyList [PyStr "a"; PyStr "b"])
      else Raise (ExOther "FileNotFoundError" "No such file or directory")
  | PyObj _ _ => Return (PyDict job_doc)
  | _ => Raise (ExOther "TypeError" "expected str, bytes or os.PathLike object")
  end.

Definition _resolve_cls_and_type (cls : pycls) (data params_override : pyval)
  : result (pycls * option string) :=
  match cls, data with
  | Component, PyDict d =>
      match d !! "type" with
      | Some (PyStr t) => Return (CommandComponent, Some t)
      | _ => Return (CommandComponent, None)
      end
  | _, _ => Return (cls, None)
  end.

(** The builder of the specification, with a schema that rejects the
    field [bad]. *)
Definition _load (cls : pycls) (data yaml_path params_override : pyval)
    (kwargs : gmap string pyval) : result pyval :=
  match data with
  | PyDict d =>
      match d !! "bad" with
      | Some _ => Raise (ExValidationError (PyDict {[ "bad" := PyStr "Unknown field." ]}))
      | None => spec_load cls data yaml_path params_override kwargs
      end
  | _ => spec_load cls data yaml_path params_override kwargs
  end.

Definition issubclass_SchemaValidatableMixin (cls : pycls) : bool :=
  match cls with
  | Job | Component | CommandComponent | ParallelComponent
  | PipelineComponent => true
  | _ => false
  end.

Definition from_validation_error (e origin : pyval) : pyval :=
  PyObj "ValidationResult" {[ "messages" := e; "origin" := origin ]}.

Definition _get_validation_error_target (cls : pycls) : ErrorTarget :=
  match cls with
  | Component | CommandComponent | ParallelComponent | PipelineComponent =>
      COMPONENT
  | _ => TargetOf (class_name_of cls)
  end.

Definition _create_schema (cls : pycls) : pyval :=
  PyObj "Schema" {[ "for" := PyStr (class_name_of cls) ]}.

Definition components_get (client name version : pyval) : result pyval :=
  Return (PyObj "CommandComponent" {[ "name" := name; "version" := version ]}).

Definition world : Externals :=
  Build_Externals load_yaml _resolve_cls_and_type _load
    issubclass_SchemaValidatableMixin from_validation_error
    _get_validation_error_target _create_schema components_get.

End Demo.

(** ** A second world, for the failures the first cannot show *)

Module Strict.

(** The files of [Demo] and one more, which holds the empty mapping. *)
Definition load_yaml (source : pyval) : result pyval :=
  match source with
  | PyStr s =>
      if String.eqb s "braces.yml" then Return (PyDict ∅)
      else Demo.load_yaml source
  | _ => Demo.load_yaml source
  end.

(** A type resolution that insists on the field [type]. *)
Definition _resolve_cls_and_type (cls : pycls) (data params_override : pyval)
  : result (pycls * option string) :=
  match data with
  | PyDict d =>
      match d !! "type" with
      | Some (PyStr t) => Return (cls, Some t)
      | _ =>
          Raise (ExValidationError
                   (PyDict {[ "type" := PyStr "Missing data for required field." ]}))
      end
  | _ => Return (cls, None)
  end.

(** A builder that knows no keyword [strict]. *)
Definition _load (cls : pycls) (data yaml_path params_override : pyval)
    (kwargs : gmap string pyval) : result pyval :=
  match kwargs !! "strict" with
  | Some _ => Raise (ExOther "TypeError" "unexpected keyword argument 'strict'")
  | None => Demo._load cls data yaml_path params_override kwargs
  end.

Definition world : Externals :=
  Build_Externals load_yaml _resolve_cls_and_type _load (λ _, true)
    Demo.from_validation_error Demo._get_validation_error_target
    Demo._create_schema Demo.components_get.

End Strict.

(** ** Reading a trace *)

Definition is_warning (ev : event) : bool :=
  match ev with EvWarn _ _ => true | _ => false end.

Definition is_components_get (ev : event) : bool :=
  match ev with EvComponentsGet _ _ _ => true | _ => false end.

Definition is_load_yaml (ev : event) : bool :=
  match ev with EvLoadYaml _ => true | _ => false end.

(** [isinstance(e, marshmallow.ValidationError)] *)
Definition is_ValidationError (e : exn) : bool :=
  match e with ExValidationError _ => true | _ => false end.

(** The keywords a loader leaves for the entity builder. *)
Definition forwarded_kwargs (F : family) (kwargs : gmap string pyval)
  : gmap string pyval :=
  if is_component F then
    delete "params_override"
      (delete "version" (delete "name" (delete "client" kwargs)))
  else delete "params_override" kwargs.

Definition load_kwargs_are (expected : gmap string pyval) (ev : event)
  : Prop :=
  match ev with
  | EvLoad _ _ _ _ kw => kw = expected
  | _ => True
  end.

(** * Lazy transport attributes: [azure/core/experimental/transport/__init__.py]

    The module exports four transport classes without importing any of them
    up front: [__getattr__] imports the submodule of a class when the
    attribute is first asked for. *)

Module Transport.

(** The exceptions the module meets. [ImportError] stands for the class and
    its subclasses ([ModuleNotFoundError] among them), which
    [except ImportError] catches alike; [cause] is the [__cause__] that
    [raise ... from err] sets. *)
Inductive exception : Type :=
| ImportError (msg : string) (cause : option exception)
| AttributeError (msg : string)
| OtherException (class_name msg : string).

(** How the statement [from .module import name] ends. *)
Inductive imported : Type :=
| Imported (cls : pyval)
| ImportRaises (err : exception).

Inductive answer : Type :=
| Found (cls : pyval)
| Raised (err : exception).

(** An attribute access: the imports it attempted, as [(module, name)], and
    how it ended. *)
Record access : Type := mkAccess {
  attempted : list (string * string);
  outcome_of : answer
}.

Definition __all__ : list string :=
  ["PyodideTransport"; "HttpXTransport"; "AsyncHttpXTransport";
   "Urllib3Transport"].

Definition __dir__ : list string := __all__.

Section Getattr.

(** The import system: what [from .module import name] does in the
    environment the module runs in. *)
Context (import_from : string → string → imported).

(** The block the module writes out once per class:
[[
    try:
        from .module import name
        return name
    except ImportError as err:
        raise ImportError(not_installed) from err
]] *)
Definition import_or_explain (module name not_installed : string) : access :=
  mkAccess [(module, name)]
    match import_from module name with
    | Imported cls => Found cls
    | ImportRaises (ImportError _ _ as err) =>
        Raised (ImportError not_installed (Some err))
    | ImportRaises err => Raised err
    end.

Definition __getattr__ (name : string) : access :=
  if String.eqb name "PyodideTransport" then
    import_or_explain "._pyodide" "PyodideTransport"
      "pyodide package is not installed"
  else if String.eqb name "HttpXTransport" then
    import_or_explain "._httpx" "HttpXTransport"
      "httpx package is not installed"
  else if String.eqb name "AsyncHttpXTransport" then
    import_or_explain "._httpx_async" "AsyncHttpXTransport"
      "httpx package is not installed"
  else if String.eqb name "Urllib3Transport" then
    import_or_explain "._urllib3" "Urllib3Transport"
      "urllib3 package is not installed"
  else
    mkAccess []
      (Raised
         (AttributeError
            ("module 'azure.core.experimental.transport' has no attribute "
             +:+ name))).

End Getattr.

(** [isinstance(err, ImportError)] *)
Definition is_ImportError (e : exception) : bool :=
  match e with ImportError _ _ => true | _ => false end.

(** An environment with httpx installed, pyodide missing and a urllib3
    whose import breaks for another reason. *)
Definition demo_import (module name : string) : imported :=
  if String.eqb module "._httpx" || String.eqb module "._httpx_async" then
    Imported (PyObj "type" {[ "__name__" := PyStr name ]})
  else if String.eqb module "._pyodide" then
    ImportRaises (ImportError "No module named 'pyodide'" None)
  else
    ImportRaises (OtherException "RuntimeError" "urllib3 is too old").

End Transport.

(** * Properties *)

(** ** Running a computation *)

Lemma bind_Return {A B} (m : M A) (k : A → M B) t a :
  m = mkM t (Return a) →
  m ≫= k = mkM (t ++ trace (k a)) (outcome (k a)).
Proof. intros ->. reflexivity. Qed.

Lemma bind_Raise {A B} (m : M A) (k : A → M B) t e :
  m = mkM t (Raise e) → m ≫= k = mkM t (Raise e).
Proof. intros ->. reflexivity. Qed.

(** Unfolds the monad and the small steps, leaving the calls outside the
    module to be decided. *)
Ltac run :=
  repeat (cbn [mbind M_bind mret M_ret trace outcome raise call warn
               try_except_ValidationError try_raise app] in *;
          unfold mbind, M_bind, mret, M_ret, raise, call, warn,
            try_except_ValidationError, try_raise, multiple_values,
            call_load_common_raising_marshmallow_error,
            _load_common_raising_marshmallow_error in *;
          cbn [trace outcome app is_none isinstance_dict negb] in *).

(** Decides the next call outside the module, whichever it is. *)
Ltac step E :=
  match goal with
  | |- context [keyword_clash ?n ?k] => destruct (keyword_clash n k) eqn:?
  | |- context [load_yaml E ?s] => destruct (load_yaml E s) as [[]|] eqn:?
  | |- context [_resolve_cls_and_type E ?c ?d ?p] =>
      destruct (_resolve_cls_and_type E c d p) as [[? ?]|] eqn:?
  | |- context [_load E ?c ?d ?o ?p ?k] =>
      destruct (_load E c d o p k) as [|[]] eqn:?
  | |- context [issubclass_SchemaValidatableMixin E ?c] =>
      destruct (issubclass_SchemaValidatableMixin E c) eqn:?
  end.

(** ** Source resolution *)

(** The resolution never raises. *)
Lemma resolve_source_total source args path :
  ∃ t s, resolve_source source args path = mkM t (Return s).
Proof.
  unfold resolve_source.
  destruct (is_none source); [|by eexists _, _].
  destruct args as [[|a0 l]|]; try by eexists _, _.
  all: destruct (is_none path); by eexists _, _.
Qed.

(** The resolution does not reach the remote client. *)
Lemma resolve_source_no_components_get source args path t s :
  resolve_source source args path = mkM t (Return s) →
  List.filter is_components_get t = [].
Proof.
  unfold resolve_source.
  destruct (is_none source); [|by intros [= <- _]].
  destruct args as [[|a0 l]|]; try by intros [= <- _].
  all: destruct (is_none path); by intros [= <- _].
Qed.

(** A source that needs no resolution goes through unchanged. *)
Lemma resolve_source_resolved s :
  resolve_source s None PyNone = mkM [] (Return s).
Proof. by destruct s. Qed.

(** [load_common] is its resolution step followed by the pipeline on the
    resolved source. *)
Lemma load_common_resolved E cls source path ro args po kw t s :
  resolve_source source args path = mkM t (Return s) →
  load_common E cls source path ro args po kw =
  mkM (t ++ trace (load_common E cls s PyNone ro None po kw))
      (outcome (load_common E cls s PyNone ro None po kw)).
Proof.
  intros H. unfold load_common.
  rewrite (bind_Return _ _ _ _ H).
  rewrite (bind_Return _ _ _ _ (resolve_source_resolved s)).
  reflexivity.
Qed.

(** The pipeline on a resolved source starts by reading it, and neither
    warns nor reaches the remote client. *)
Lemma pipeline_trace E cls s ro po kw :
  ∃ rest,
    trace (load_common E cls s PyNone ro None po kw) = EvLoadYaml s :: rest ∧
    List.filter is_warning rest = [] ∧
    List.filter is_components_get (EvLoadYaml s :: rest) = [].
Proof.
  unfold load_common.
  rewrite (bind_Return _ _ _ _ (resolve_source_resolved s)).
  unfold _try_load_yaml_dict, _load_common_raising_marshmallow_error.
  repeat (run; step E); run;
    (eexists; split; [reflexivity|split; reflexivity]).
Qed.

(** C1. When [source] is [None], [load_common] reads [args[0]] if [args] is
    not empty, and else [path] if that is not [None], warning of the
    deprecation in that last case and in no other; with nothing given at
    all the resolution still raises nothing, and the call goes on to read
    [None]. A [source] that was given is read as it is, without a
    warning. *)
Theorem load_common_source_resolution E cls source path relative_origin args
    params_override kwargs :
  ∃ rest,
    List.filter is_warning rest = [] ∧
    trace (load_common E cls source path relative_origin args params_override
             kwargs) =
      if is_none source then
        match args with
        | Some (a0 :: _) => EvLoadYaml a0 :: rest
        | _ =>
            if is_none path then EvLoadYaml PyNone :: rest
            else EvWarn deprecation_message "DeprecationWarning"
                   :: EvLoadYaml path :: rest
        end
      else EvLoadYaml source :: rest.
Proof.
  assert (∀ t s, resolve_source source args path = mkM t (Return s) →
     ∃ rest, List.filter is_warning rest = [] ∧
       trace (load_common E cls source path relative_origin args
                params_override kwargs) = t ++ EvLoadYaml s :: rest) as H.
  { intros t s Hr. rewrite (load_common_resolved _ _ _ _ _ _ _ _ _ _ Hr).
    destruct (pipeline_trace E cls s relative_origin params_override kwargs)
      as (rest & -> & Hw & _).
    by exists rest. }
  unfold resolve_source in H.
  destruct source; simpl in *; try (by apply (H [])).
  destruct args as [[|a0 l]|]; try (by apply (H [])).
  all: destruct path; simpl in *; try (by apply (H []));
    by apply (H [EvWarn _ _]).
Qed.

(** ** YAML materialization *)

(** C2. Whatever the call, once the reader hands back [None] or a value that
    is not a mapping, [load_common] stops there: it raises a
    [ValidationException] of type [CANNOT_PARSE], whose message is the
    empty-file text for [None] and otherwise names the type of the value
    read; the trace ends with the read, so neither the type resolution nor
    the entity builder has been called. *)
Theorem load_common_rejects_non_mapping E cls source path relative_origin args
    params_override kwargs t s y :
  resolve_source source args path = mkM t (Return s) →
  load_yaml E s = Return y →
  isinstance_dict y = false →
  ∃ exc,
    load_common E cls source path relative_origin args params_override kwargs
    = mkM (t ++ [EvLoadYaml s]) (Raise (ExValidationException exc)) ∧
    error_type exc = CANNOT_PARSE ∧
    target exc = COMPONENT ∧
    message exc =
      if is_none y then "Target yaml file is empty"
      else "Expect dict but get " +:+ ("<class '" +:+ type_name y +:+ "'>")
             +:+ " after parsing yaml file".
Proof.
  intros Hr Hy Hd.
  rewrite (load_common_resolved _ _ _ _ _ _ _ _ _ _ Hr).
  unfold load_common.
  rewrite (bind_Return _ _ _ _ (resolve_source_resolved s)).
  unfold _try_load_yaml_dict. run. rewrite Hy. run.
  destruct y; try discriminate Hd; run;
    (eexists; split; [reflexivity|by repeat split]).
Qed.

Lemma load_common_rejects_non_mapping_witness :
  resolve_source (PyStr "list.yml") (Some []) PyNone
    = mkM [] (Return (PyStr "list.yml")) ∧
  load_yaml Demo.world (PyStr "list.yml")
    = Return (PyList [PyStr "a"; PyStr "b"]) ∧
  ∃ exc,
    load_common Demo.world Job (PyStr "list.yml") PyNone PyNone (Some [])
      PyNone ∅
    = mkM ([] ++ [EvLoadYaml (PyStr "list.yml")])
        (Raise (ExValidationException exc)) ∧
    error_type exc = CANNOT_PARSE ∧
    target exc = COMPONENT ∧
    message exc = "Expect dict but get <class 'list'> after parsing yaml file".
Proof.
  split; [reflexivity|]. split; [reflexivity|].
  apply (load_common_rejects_non_mapping Demo.world Job (PyStr "list.yml")
           PyNone PyNone (Some []) PyNone ∅ [] (PyStr "list.yml")
           (PyList [PyStr "a"; PyStr "b"])); reflexivity.
Defined.

(** An empty mapping is a mapping: the check lets it through to the type
    resolution. *)
Lemma try_load_yaml_dict_empty_mapping E s :
  load_yaml E s = Return (PyDict ∅) →
  _try_load_yaml_dict E s = mkM [EvLoadYaml s] (Return (PyDict ∅)).
Proof. intros H. unfold _try_load_yaml_dict. run. by rewrite H. Qed.

(** ** The component loader *)

(** [load_component] with its three pops carried out. *)
Lemma load_component_unfold E args source relative_origin path
    (kwargs : gmap string pyval) :
  load_component E args source relative_origin path kwargs =
  let client := default PyNone (kwargs !! "client") in
  let name := default PyNone (kwargs !! "name") in
  let version := default PyNone (kwargs !! "version") in
  source ← resolve_source source (Some args) path;
  if truthy source then
    call_load_common E Component source path relative_origin args
      (delete "version" (delete "name" (delete "client" kwargs)))
  else if truthy client && truthy name && truthy version then
    call (EvComponentsGet client name version)
         (components_get E client name version)
  else raise (ExValidationException missing_value_exception).
Proof.
  unfold load_component, kwargs_pop. cbn zeta.
  by rewrite !lookup_delete_ne.
Qed.

Lemma is_none_not_truthy v : is_none v = true → truthy v = false.
Proof. by destruct v. Qed.

(** C3. With no source to resolve ([source] and [path] are [None], and
    [args] is empty or starts with [None]) and one of [client], [name] and
    [version] missing, [load_component] raises the [MISSING_VALUE]
    exception; its trace is empty, so nothing was read and the client was
    not asked. *)
Theorem load_component_missing_value E args relative_origin
    (kwargs : gmap string pyval) :
  is_none (default PyNone (head args)) = true →
  is_none (default PyNone (kwargs !! "client"))
  || is_none (default PyNone (kwargs !! "name"))
  || is_none (default PyNone (kwargs !! "version")) = true →
  ∃ exc,
    load_component E args PyNone relative_origin PyNone kwargs
    = mkM [] (Raise (ExValidationException exc)) ∧
    error_type exc = MISSING_VALUE ∧
    message exc
    = "One of (client, name, version), (source) should be provided.".
Proof.
  intros Ha Hk. rewrite load_component_unfold. cbn zeta.
  assert (∃ s, resolve_source PyNone (Some args) PyNone = mkM [] (Return s)
               ∧ truthy s = false) as (s & Hr & Hs).
  { destruct args as [|a0 l]; [by exists PyNone|].
    exists a0. split; [done|]. by apply is_none_not_truthy. }
  rewrite (bind_Return _ _ _ _ Hr), Hs.
  assert (truthy (default PyNone (kwargs !! "client"))
          && truthy (default PyNone (kwargs !! "name"))
          && truthy (default PyNone (kwargs !! "version")) = false) as ->.
  { apply orb_true_iff in Hk as [Hk|Hk];
      [apply orb_true_iff in Hk as [Hk|Hk]|];
      rewrite (is_none_not_truthy _ Hk);
      by rewrite ?andb_false_r. }
  exists missing_value_exception. by repeat split.
Qed.

Lemma load_component_missing_value_witness :
  is_none (default PyNone (head ([] : list pyval))) = true ∧
  ∃ exc,
    load_component Demo.world [] PyNone PyNone PyNone
      {[ "name" := PyStr "x"; "version" := PyStr "1" ]}
    = mkM [] (Raise (ExValidationException exc)) ∧
    error_type exc = MISSING_VALUE ∧
    message exc
    = "One of (client, name, version), (source) should be provided.".
Proof.
  split; [reflexivity|].
  apply (load_component_missing_value Demo.world [] PyNone
           {[ "name" := PyStr "x"; "version" := PyStr "1" ]});
    reflexivity.
Defined.

(** C4, as the specification words it, fails: a [name] that is supplied but
    empty makes the test [client and name and version] false, and the call
    raises the [MISSING_VALUE] exception without asking the client. *)
Lemma load_component_remote_fetch_counterexample :
  let client := PyObj "MLClient" ∅ in
  let kwargs : gmap string pyval :=
    {[ "client" := client; "name" := PyStr ""; "version" := PyStr "1" ]} in
  (kwargs !! "client" = Some client ∧ is_none client = false) ∧
  (kwargs !! "name" = Some (PyStr "") ∧ is_none (PyStr "") = false) ∧
  (kwargs !! "version" = Some (PyStr "1") ∧ is_none (PyStr "1") = false) ∧
  load_component Demo.world [] PyNone PyNone PyNone kwargs
  = mkM [] (Raise (ExValidationException missing_value_exception)) ∧
  load_component Demo.world [] PyNone PyNone PyNone kwargs
  ≠ mkM [EvComponentsGet client (PyStr "") (PyStr "1")]
      (components_get Demo.world client (PyStr "") (PyStr "1")).
Proof.
  cbn zeta. repeat split; try reflexivity.
  intros H. apply (f_equal trace) in H. vm_compute in H. discriminate H.
Qed.

(** C4, amended. With no source, no positional argument and no path, and
    with [client], [name] and [version] all supplied and true in Python's
    sense, [load_component] makes the one call
    [client.components.get(name, version)] and ends as that call ends; the
    trace holds nothing else, so no YAML was read and no entity built. *)
Theorem load_component_remote_fetch E relative_origin
    (kwargs : gmap string pyval) client name version :
  kwargs !! "client" = Some client →
  kwargs !! "name" = Some name →
  kwargs !! "version" = Some version →
  truthy client = true → truthy name = true → truthy version = true →
  load_component E [] PyNone relative_origin PyNone kwargs
  = mkM [EvComponentsGet client name version]
      (components_get E client name version).
Proof.
  intros Hc Hn Hv Tc Tn Tv. rewrite load_component_unfold.
  rewrite Hc, Hn, Hv. cbn [default]. cbn zeta.
  rewrite (bind_Return _ _ [] PyNone) by reflexivity.
  unfold id. rewrite Tc, Tn, Tv. cbn [andb].
  by destruct (components_get E client name version).
Qed.

Lemma load_component_remote_fetch_witness :
  let client := PyObj "MLClient" ∅ in
  let kwargs : gmap string pyval :=
    {[ "client" := client; "name" := PyStr "x"; "version" := PyStr "1" ]} in
  load_component Demo.world [] PyNone PyNone PyNone kwargs
  = mkM [EvComponentsGet client (PyStr "x") (PyStr "1")]
      (components_get Demo.world client (PyStr "x") (PyStr "1")).
Proof.
  cbn zeta.
  apply (load_component_remote_fetch Demo.world PyNone
           {[ "client" := PyObj "MLClient" ∅; "name" := PyStr "x";
              "version" := PyStr "1" ]}
           (PyObj "MLClient" ∅) (PyStr "x") (PyStr "1"));
    reflexivity.
Defined.

(** The keywords [load_component] pops are none of [load_common]'s
    positional parameters. *)
Lemma kwargs_clash_popped (kwargs : gmap string pyval) :
  kwargs_clash (delete "version" (delete "name" (delete "client" kwargs)))
  = kwargs_clash kwargs.
Proof.
  unfold kwargs_clash, load_common_positional. cbn [existsb].
  by rewrite !lookup_delete_ne.
Qed.

(** The pipeline behind a wrapper's call, when the keywords bind. *)
Lemma call_load_common_binds E cls source path ro args
    (kwargs : gmap string pyval) :
  kwargs_clash kwargs = false →
  call_load_common E cls source path ro args kwargs =
  load_common E cls source path ro (Some args)
    (default PyNone (kwargs !! "params_override"))
    (delete "params_override" kwargs).
Proof. intros H. unfold call_load_common. by rewrite H. Qed.

(** Every wrapper but [load_component] is the call of [load_common] on the
    class of its family. *)
Lemma load_wrapper E F args source ro path kwargs :
  is_component F = false →
  load E F args source ro path kwargs =
  call_load_common E (family_class F) source path ro args kwargs.
Proof. by destruct F. Qed.

(** [call_load_common] never reaches the remote client. *)
Lemma call_load_common_no_components_get E cls source path ro args kwargs :
  List.filter is_components_get
    (trace (call_load_common E cls source path ro args kwargs)) = [].
Proof.
  unfold call_load_common. destruct (kwargs_clash kwargs); [done|].
  unfold kwargs_pop.
  destruct (resolve_source_total source (Some args) path) as (t & s & Hr).
  rewrite (load_common_resolved _ _ _ _ _ _ _ _ _ _ Hr). cbn [trace].
  destruct (pipeline_trace E cls s ro
              (default PyNone (kwargs !! "params_override"))
              (delete "params_override" kwargs)) as (rest & -> & _ & Hg).
  rewrite List.filter_app, Hg, app_nil_r.
  by apply (resolve_source_no_components_get _ _ _ _ _ Hr).
Qed.

(** ** The legacy [path] parameter *)

(** C5. For every family and every path value that is not [None], the
    legacy call [load_F(path=p)] ends as [load_F(source=p)] ends, with the
    same returned entity or the same exception, and performs the same
    events after one more: the deprecation warning, which comes first. The
    other keywords are the same in both calls and bind to [load_common]. *)
Theorem legacy_path_equivalence E F p relative_origin
    (kwargs : gmap string pyval) :
  is_none p = false →
  kwargs_clash kwargs = false →
  let legacy := load E F [] PyNone relative_origin p kwargs in
  let modern := load E F [] p relative_origin PyNone kwargs in
  outcome legacy = outcome modern ∧
  trace legacy
  = EvWarn deprecation_message "DeprecationWarning" :: trace modern.
Proof.
  intros Hp Hk legacy modern. subst legacy modern.
  assert (resolve_source PyNone (Some []) p
          = mkM [EvWarn deprecation_message "DeprecationWarning"] (Return p))
    as Hl by (by destruct p).
  assert (∀ path, resolve_source p (Some []) path = mkM [] (Return p))
    as Hm by (by destruct p).
  destruct (is_component F) eqn:HF.
  - destruct F; try discriminate HF. cbn [load].
    rewrite !load_component_unfold. cbn zeta.
    rewrite (bind_Return _ _ _ _ Hl), (bind_Return _ _ _ _ (Hm PyNone)).
    destruct (truthy p); [|done].
    rewrite !call_load_common_binds by (by rewrite kwargs_clash_popped).
    rewrite (load_common_resolved _ _ _ _ _ _ _ _ _ _ (Hm p)).
    rewrite (load_common_resolved _ _ _ _ _ _ _ _ _ _ (Hm PyNone)).
    done.
  - rewrite !load_wrapper by done.
    rewrite !call_load_common_binds by done.
    rewrite (load_common_resolved _ _ _ _ _ _ _ _ _ _ Hl).
    rewrite (load_common_resolved _ _ _ _ _ _ _ _ _ _ (Hm PyNone)).
    done.
Qed.

Lemma legacy_path_equivalence_witness :
  let legacy := load Demo.world FJob [] PyNone PyNone (PyStr "job.yml") ∅ in
  let modern := load Demo.world FJob [] (PyStr "job.yml") PyNone PyNone ∅ in
  is_none (PyStr "job.yml") = false ∧
  outcome legacy = outcome modern ∧
  trace legacy
  = EvWarn deprecation_message "DeprecationWarning" :: trace modern.
Proof.
  cbn zeta. split; [reflexivity|].
  apply (legacy_path_equivalence Demo.world FJob (PyStr "job.yml") PyNone ∅);
    reflexivity.
Defined.

(** ** Origin, construction and error translation *)

(** The two inner calls go through when no keyword stands in the way. *)
Lemma builder_call_goes_through E cls yaml_dict origin po kwargs :
  builder_kwargs_clash kwargs = false →
  call_load_common_raising_marshmallow_error E cls yaml_dict origin po kwargs
  = call (EvLoad cls yaml_dict origin po kwargs)
         (_load E cls yaml_dict origin po kwargs).
Proof.
  unfold builder_kwargs_clash. intros [H1 H2]%orb_false_iff.
  unfold call_load_common_raising_marshmallow_error,
    _load_common_raising_marshmallow_error.
  by rewrite H1, H2.
Qed.

(** The pipeline up to the call of the entity builder, for a source that
    reads as a mapping, a class that resolves and keywords that bind. *)
Lemma load_common_reaches_load E cls source path ro args po kwargs t s d
    cls' type_str :
  resolve_source source args path = mkM t (Return s) →
  load_yaml E s = Return (PyDict d) →
  _resolve_cls_and_type E cls (PyDict d) (or_empty_list po)
  = Return (cls', type_str) →
  builder_kwargs_clash kwargs = false →
  let origin := derive_origin ro s in
  let build :=
    try_except_ValidationError
      (call (EvLoad cls' (PyDict d) origin (or_empty_list po) kwargs)
            (_load E cls' (PyDict d) origin (or_empty_list po) kwargs))
      (λ e,
         if issubclass_SchemaValidatableMixin E cls' then
           validation_result ←
             call (EvFromValidationError e origin)
                  (Return (from_validation_error E e origin));
           try_raise validation_result
             (_get_validation_error_target E cls')
             (_create_schema_for_validation_with_base_path E cls')
             true (additional_message_of type_str);;
           mret PyNone
         else raise (ExValidationError e)) in
  load_common E cls source path ro args po kwargs
  = mkM (t ++ EvLoadYaml s :: EvResolveCls cls (PyDict d) (or_empty_list po)
           :: trace build)
        (outcome build).
Proof.
  intros Hr Hy Hc Hk origin build.
  rewrite (load_common_resolved _ _ _ _ _ _ _ _ _ _ Hr).
  unfold load_common.
  rewrite (bind_Return _ _ _ _ (resolve_source_resolved s)).
  unfold _try_load_yaml_dict.
  rewrite Hy.
  erewrite (bind_Return (call _ (Return (PyDict d)) ≫= _));
    [|reflexivity].
  rewrite Hc.
  erewrite (bind_Return (call _ (Return (cls', type_str))));
    [|reflexivity].
  cbv beta iota.
  rewrite (builder_call_goes_through _ _ _ _ _ _ Hk).
  reflexivity.
Qed.

(** C6. With no [relative_origin] given, the origin [load_common] hands to
    the entity builder as [yaml_path] is the effective source itself when
    that is a string or a path object, else the [name] attribute of the
    source when it has one, else ["./"]. The builder is reached when the
    document is a mapping, the class resolves and no keyword of the call
    bears the name of a parameter the two inner calls already give. *)
Theorem origin_derivation E cls source path args params_override kwargs t s d
    cls' type_str :
  resolve_source source args path = mkM t (Return s) →
  load_yaml E s = Return (PyDict d) →
  _resolve_cls_and_type E cls (PyDict d) (or_empty_list params_override)
  = Return (cls', type_str) →
  builder_kwargs_clash kwargs = false →
  let origin :=
    match s with
    | PyStr _ | PyPathLike _ => s
    | PyObj _ attrs => default (PyStr "./") (attrs !! "name")
    | _ => PyStr "./"
    end in
  ∃ rest,
    trace (load_common E cls source path PyNone args params_override kwargs)
    = t ++ EvLoadYaml s
        :: EvResolveCls cls (PyDict d) (or_empty_list params_override)
        :: EvLoad cls' (PyDict d) origin (or_empty_list params_override)
             kwargs
        :: rest.
Proof.
  intros Hr Hy Hc Hk origin.
  rewrite (load_common_reaches_load _ _ _ _ _ _ _ _ _ _ _ _ _ Hr Hy Hc Hk).
  cbn [trace].
  assert (derive_origin PyNone s = origin) as ->.
  { subst origin. unfold derive_origin, getattr_name, _DEFAULT_RELATIVE_ORIGIN.
    destruct s; try done; cbn; by destruct (attrs !! "name"). }
  unfold _load_common_raising_marshmallow_error. run.
  repeat (step E; run); by eexists.
Qed.

Lemma origin_derivation_witness :
  let stream := PyObj "TextIOWrapper" {[ "name" := PyStr "/tmp/foo.yaml" ]} in
  ∃ rest,
    trace (load_common Demo.world Job stream PyNone PyNone (Some []) PyNone ∅)
    = [] ++ EvLoadYaml stream
        :: EvResolveCls Job (PyDict Demo.job_doc) (or_empty_list PyNone)
        :: EvLoad Job (PyDict Demo.job_doc) (PyStr "/tmp/foo.yaml")
             (or_empty_list PyNone) ∅
        :: rest.
Proof.
  cbn zeta.
  exact (origin_derivation Demo.world Job
           (PyObj "TextIOWrapper" {[ "name" := PyStr "/tmp/foo.yaml" ]})
           PyNone (Some []) PyNone ∅ []
           (PyObj "TextIOWrapper" {[ "name" := PyStr "/tmp/foo.yaml" ]})
           Demo.job_doc Job None eq_refl eq_refl eq_refl eq_refl).
Defined.

(** A stream without a name is given the default origin. *)
Example origin_of_nameless_stream :
  derive_origin PyNone (PyObj "StringIO" ∅) = PyStr "./".
Proof. reflexivity. Qed.

(** C7. When the entity builder raises a schema validation error: for a
    resolved class that supports structured validation, a validation result
    is built from the error and the origin, and the exception raised carries
    that result, the class's error target, its base-path schema and, when
    the type resolution reported a type string, the guidance text naming it
    (the empty text otherwise); for a class that does not, the error is
    raised again as it came. The builder is called when no keyword of the
    call bears the name of a parameter the two inner calls already give. *)
Theorem validation_error_translation E cls source path relative_origin args
    params_override kwargs t s d cls' type_str e :
  let origin := derive_origin relative_origin s in
  let po := or_empty_list params_override in
  resolve_source source args path = mkM t (Return s) →
  load_yaml E s = Return (PyDict d) →
  _resolve_cls_and_type E cls (PyDict d) po = Return (cls', type_str) →
  builder_kwargs_clash kwargs = false →
  _load E cls' (PyDict d) origin po kwargs = Raise (ExValidationError e) →
  load_common E cls source path relative_origin args params_override kwargs
  = if issubclass_SchemaValidatableMixin E cls' then
      mkM (t ++ [EvLoadYaml s; EvResolveCls cls (PyDict d) po;
                 EvLoad cls' (PyDict d) origin po kwargs;
                 EvFromValidationError e origin])
          (Raise
             (ExSchemaValidation
                (from_validation_error E e origin)
                (_get_validation_error_target E cls')
                (_create_schema_for_validation_with_base_path E cls')
                match type_str with
                | None => ""
                | Some ty =>
                    "If you are trying to configure an entity that is not of type "
                    +:+ ty
                    +:+ ", please specify the correct type in the 'type' property."
                end))
    else
      mkM (t ++ [EvLoadYaml s; EvResolveCls cls (PyDict d) po;
                 EvLoad cls' (PyDict d) origin po kwargs])
          (Raise (ExValidationError e)).
Proof.
  intros origin po Hr Hy Hc Hk Hl. subst origin po.
  rewrite (load_common_reaches_load _ _ _ _ _ _ _ _ _ _ _ _ _ Hr Hy Hc Hk).
  run. rewrite Hl. run.
  destruct (issubclass_SchemaValidatableMixin E cls'); run; try done.
  all: by destruct type_str.
Qed.

Lemma validation_error_translation_witness :
  let origin := PyStr "bad.yml" in
  let e := PyDict {[ "bad" := PyStr "Unknown field." ]} in
  load_yaml Demo.world (PyStr "bad.yml") = Return (PyDict Demo.bad_doc) ∧
  _load Demo.world CommandComponent (PyDict Demo.bad_doc) origin (PyList []) ∅
  = Raise (ExValidationError e) ∧
  load_common Demo.world Component (PyStr "bad.yml") PyNone PyNone (Some [])
    PyNone ∅
  = mkM [EvLoadYaml (PyStr "bad.yml");
         EvResolveCls Component (PyDict Demo.bad_doc) (PyList []);
         EvLoad CommandComponent (PyDict Demo.bad_doc) origin (PyList []) ∅;
         EvFromValidationError e origin]
      (Raise
         (ExSchemaValidation
            (Demo.from_validation_error e origin) COMPONENT
            (Demo._create_schema CommandComponent)
            "If you are trying to configure an entity that is not of type command, please specify the correct type in the 'type' property.")).
Proof.
  cbn zeta. split; [reflexivity|]. split; [reflexivity|].
  apply (validation_error_translation Demo.world Component (PyStr "bad.yml")
           PyNone PyNone (Some []) PyNone ∅ [] (PyStr "bad.yml") Demo.bad_doc
           CommandComponent (Some "command")
           (PyDict {[ "bad" := PyStr "Unknown field." ]}));
    reflexivity.
Defined.

(** C8. When the resolved source is true in Python's sense,
    [load_component] is the local load, whatever [client], [name] and
    [version] were given: after the resolution it is the call of
    [load_common] on [Component], which reads the local YAML first; the
    trace holds no call of [client.components.get]; and when the document
    is a mapping, the class resolves and the builder returns, the call
    returns the entity the builder made from that document, the three
    keywords of the remote mode having been taken out of what the builder
    receives. *)
Theorem load_component_local_source_wins E args source relative_origin path
    (kwargs : gmap string pyval) t s :
  resolve_source source (Some args) path = mkM t (Return s) →
  truthy s = true →
  let kw := delete "version" (delete "name" (delete "client" kwargs)) in
  let local := call_load_common E Component s path relative_origin args kw in
  let run := load_component E args source relative_origin path kwargs in
  run = mkM (t ++ trace local) (outcome local) ∧
  List.filter is_components_get (trace run) = [] ∧
  (∃ rest,
     trace local
     = if kwargs_clash kwargs then [] else EvLoadYaml s :: rest) ∧
  ∀ d cls' type_str entity,
    let po := or_empty_list (default PyNone (kwargs !! "params_override")) in
    let origin := derive_origin relative_origin s in
    let kw' := delete "params_override" kw in
    kwargs_clash kwargs = false →
    builder_kwargs_clash kw' = false →
    load_yaml E s = Return (PyDict d) →
    _resolve_cls_and_type E Component (PyDict d) po
    = Return (cls', type_str) →
    _load E cls' (PyDict d) origin po kw' = Return entity →
    run = mkM (t ++ [EvLoadYaml s; EvResolveCls Component (PyDict d) po;
                     EvLoad cls' (PyDict d) origin po kw'])
              (Return entity).
Proof.
  intros Hr Hs kw local run. subst run.
  rewrite load_component_unfold. cbn zeta.
  rewrite (bind_Return _ _ _ _ Hr), Hs. fold kw. fold local.
  assert (resolve_source s (Some args) path = mkM [] (Return s)) as Hr'
    by (by destruct s).
  split; [done|]. split; [|split].
  - cbn [trace]. rewrite List.filter_app.
    unfold local. rewrite call_load_common_no_components_get, app_nil_r.
    by apply (resolve_source_no_components_get _ _ _ _ _ Hr).
  - unfold local, call_load_common, kw. rewrite kwargs_clash_popped.
    destruct (kwargs_clash kwargs); [by exists []|].
    unfold kwargs_pop.
    rewrite (load_common_resolved _ _ _ _ _ _ _ _ _ _ Hr').
    edestruct pipeline_trace as (rest & -> & _). by exists rest.
  - intros d cls' type_str entity Hk Hb Hy Hc Hl.
    assert (kwargs_clash kw = false) as Hk'
      by (unfold kw; by rewrite kwargs_clash_popped).
    unfold local, call_load_common. rewrite Hk'. unfold kwargs_pop.
    assert (kw !! "params_override" = kwargs !! "params_override") as ->
      by (unfold kw; by rewrite !lookup_delete_ne).
    rewrite (load_common_reaches_load E Component s path relative_origin
               (Some args) _ _ [] s d cls' type_str Hr' Hy Hc Hb).
    run. by rewrite Hl.
Qed.

Lemma load_component_local_source_wins_witness :
  let kwargs : gmap string pyval :=
    {[ "client" := PyObj "MLClient" ∅; "name" := PyStr "x";
       "version" := PyStr "1" ]} in
  let run :=
    load_component Demo.world [] (PyStr "job.yml") PyNone PyNone kwargs in
  truthy (PyStr "job.yml") = true ∧
  List.filter is_components_get (trace run) = [] ∧
  run = mkM ([] ++ [EvLoadYaml (PyStr "job.yml");
                    EvResolveCls Component (PyDict Demo.job_doc) (PyList []);
                    EvLoad CommandComponent (PyDict Demo.job_doc)
                      (PyStr "job.yml") (PyList []) ∅])
            (Return (PyObj "CommandComponent" Demo.job_doc)).
Proof.
  cbn zeta. split; [reflexivity|].
  destruct (load_component_local_source_wins Demo.world [] (PyStr "job.yml")
              PyNone PyNone
              {[ "client" := PyObj "MLClient" ∅; "name" := PyStr "x";
                 "version" := PyStr "1" ]} [] (PyStr "job.yml")
              eq_refl eq_refl) as (_ & Hget & _ & Hbuilt).
  split; [exact Hget|].
  exact (Hbuilt Demo.job_doc CommandComponent (Some "command")
           (PyObj "CommandComponent" Demo.job_doc)
           eq_refl eq_refl eq_refl eq_refl eq_refl).
Defined.

(** ** Overrides *)

(** A field path has at least one field. *)
Lemma split_on_dot_nonempty path : split_on_dot path ≠ [].
Proof.
  destruct path as [|c rest]; [done|]. cbn.
  destruct (Ascii.eqb c "."); [done|]. by destruct (split_on_dot rest).
Qed.

(** Reading and writing below the first field of a path. *)
Lemma get_path_below f f' p (d : gmap string pyval) :
  get_path (f :: f' :: p) d
  = match d !! f with
    | Some (PyDict e) => get_path (f' :: p) e
    | _ => None
    end.
Proof. reflexivity. Qed.

Lemma set_path_below f f' p v (d : gmap string pyval) :
  set_path (f :: f' :: p) v d
  = <[f := PyDict (set_path (f' :: p) v
                     match d !! f with Some (PyDict e) => e | _ => ∅ end)]> d.
Proof. reflexivity. Qed.

Lemma get_path_empty p : get_path p (∅ : gmap string pyval) = None.
Proof. destruct p as [|f [|f' p]]; cbn; by rewrite ?lookup_empty. Qed.

(** What is written at a path is read back there. *)
Lemma get_set_path_same path v :
  path ≠ [] → ∀ d, get_path path (set_path path v d) = Some v.
Proof.
  induction path as [|field deeper IH]; [done|]. intros _ d.
  destruct deeper as [|field' deeper'].
  - cbn. by rewrite lookup_insert_eq.
  - rewrite set_path_below, get_path_below, lookup_insert_eq. by apply IH.
Qed.

(** A write at a path that parts ways with another leaves the value at the
    other as it was. *)
Lemma get_set_path_diverge p :
  ∀ q w d, paths_diverge p q = true →
           get_path p (set_path q w d) = get_path p d.
Proof.
  induction p as [|f p' IH]; [done|]. intros [|g q'] w d; [done|].
  cbn [paths_diverge]. destruct (String.eqb_spec f g) as [->|Hne].
  - intros Hd.
    destruct p' as [|f' p'']; [by destruct q'|].
    destruct q' as [|g' q'']; [done|].
    rewrite set_path_below, !get_path_below, lookup_insert_eq.
    rewrite (IH (g' :: q'')) by done.
    destruct (d !! g) as [[]|]; try done; apply get_path_empty.
  - intros _.
    assert (∀ x, <[g:=x]> d !! f = d !! f) as Hl
      by (intros; by rewrite lookup_insert_ne).
    destruct p' as [|f' p'']; destruct q' as [|g' q''];
      rewrite ?set_path_below, ?get_path_below; cbn [get_path set_path];
      by rewrite Hl.
Qed.

(** An override list of single-entry mappings is written path by path. *)
Lemma apply_params_override_entries (ovs : list (string * pyval)) :
  ∀ d : gmap string pyval,
    apply_params_override d (override_entry <$> ovs)
    = Some (foldl (λ d kv, set_path (split_on_dot kv.1) kv.2 d) d ovs).
Proof.
  unfold apply_params_override.
  induction ovs as [|kv ovs IH]; intros d; [done|].
  cbn [fmap list_fmap foldl override_entry].
  unfold apply_override. rewrite map_to_list_singleton. cbn [foldl].
  apply IH.
Qed.

(** The last override that names a path decides the value there, whatever
    the document and the earlier overrides hold, when the later ones write
    elsewhere. *)
Lemma overrides_last_wins (before after : list (string * pyval)) key v :
  Forall (λ kv, paths_diverge (split_on_dot key) (split_on_dot kv.1) = true)
    after →
  ∀ d : gmap string pyval,
    get_path (split_on_dot key)
      (foldl (λ d kv, set_path (split_on_dot kv.1) kv.2 d) d
         (before ++ [(key, v)] ++ after))
    = Some v.
Proof.
  intros Hafter d. rewrite !foldl_app. cbn [foldl fst snd].
  set (d' := foldl _ d before). clearbody d'.
  assert (get_path (split_on_dot key) (set_path (split_on_dot key) v d')
          = Some v) as Hset
    by (apply get_set_path_same, split_on_dot_nonempty).
  revert Hset. generalize (set_path (split_on_dot key) v d'). clear d d'.
  induction Hafter as [|kv after Hkv _ IH]; intros d Hd; [done|].
  cbn [foldl]. apply IH. by rewrite get_set_path_diverge.
Qed.

(** C9. With the entity builder of the specification, the entity
    [load_common] returns has, at every field path an override names, the
    value of the last override in the list that names it, whatever the
    parsed document and the earlier overrides hold there; the overrides
    after it write at paths that part ways with this one. The builder is
    reached when no keyword of the call bears the name of a parameter the
    two inner calls already give. *)
Theorem params_override_last_wins E cls source path relative_origin args
    kwargs t s (d : gmap string pyval) cls' type_str
    (before after : list (string * pyval)) key v :
  let params_override :=
    PyList (override_entry <$> (before ++ [(key, v)] ++ after)) in
  resolve_source source args path = mkM t (Return s) →
  load_yaml E s = Return (PyDict d) →
  _resolve_cls_and_type E cls (PyDict d) params_override
  = Return (cls', type_str) →
  builder_kwargs_clash kwargs = false →
  Forall (λ kv, paths_diverge (split_on_dot key) (split_on_dot kv.1) = true)
    after →
  ∃ entity,
    outcome (load_common (with_spec_load E) cls source path relative_origin
               args params_override kwargs) = Return entity ∧
    entity_field key entity = Some v.
Proof.
  intros po Hr Hy Hc Hk Hafter.
  assert (or_empty_list po = po) as Hpo.
  { subst po. unfold or_empty_list. cbn [truthy].
    rewrite fmap_app. by destruct (override_entry <$> before). }
  rewrite (load_common_reaches_load (with_spec_load E) _ _ _ _ _ _ _ _ _ d
             cls' type_str Hr); [|done|by rewrite Hpo|done].
  rewrite Hpo. run.
  subst po. cbn [_load with_spec_load spec_load trace outcome].
  rewrite apply_params_override_entries. cbn [trace outcome].
  eexists. split; [reflexivity|].
  cbn [entity_field]. by apply overrides_last_wins.
Qed.

Lemma params_override_last_wins_witness :
  let params_override :=
    PyList (override_entry
              <$> ([("name", PyStr "a")] ++ [("name", PyStr "b")] ++ [])) in
  Demo.job_doc !! "name" = None ∧
  ∃ entity,
    outcome (load_common (with_spec_load Demo.world) Job (PyStr "job.yml")
               PyNone PyNone (Some []) params_override ∅) = Return entity ∧
    entity_field "name" entity = Some (PyStr "b").
Proof.
  cbn zeta. split; [reflexivity|].
  apply (params_override_last_wins Demo.world Job (PyStr "job.yml") PyNone
           PyNone (Some []) ∅ [] (PyStr "job.yml") Demo.job_doc Job None
           [("name", PyStr "a")] [] "name" (PyStr "b")); try reflexivity.
  apply Forall_nil_2.
Defined.

(** Field paths reach below the top of the document: an override of
    [a.b] changes that field and leaves its neighbour [a.c]. *)
Example override_of_a_nested_field :
  let doc : gmap string pyval :=
    {[ "a" := PyDict {[ "b" := PyInt 1; "c" := PyInt 3 ]} ]} in
  let fields := apply_params_override doc [override_entry ("a.b", PyInt 2)] in
  (fields ≫= get_path ["a"; "b"]) = Some (PyInt 2) ∧
  (fields ≫= get_path ["a"; "c"]) = Some (PyInt 3).
Proof. split; vm_compute; reflexivity. Qed.

(** ** A source that is false without being [None] *)

(** C10. Take a call whose resolved source is false in Python's sense, as
    the empty string is without being [None]. [load_component] does not
    read it: unless [client], [name] and [version] are all given and true,
    it raises the [MISSING_VALUE] exception right after the resolution.
    Every other wrapper hands that source to the YAML reader; and with the
    reader of the specification, on a store where no file has the empty
    path, the read fails there with an I/O error, which is the failure of
    the call. *)
Theorem falsy_source_edge E st args source relative_origin path
    (kwargs : gmap string pyval) t s :
  resolve_source source (Some args) path = mkM t (Return s) →
  truthy s = false →
  files st !! "" = None →
  (truthy (default PyNone (kwargs !! "client"))
   && truthy (default PyNone (kwargs !! "name"))
   && truthy (default PyNone (kwargs !! "version")) = false →
   load_component E args source relative_origin path kwargs
   = mkM t (Raise (ExValidationException missing_value_exception))) ∧
  (∀ F, is_component F = false → kwargs_clash kwargs = false →
     (∃ rest,
        trace (load E F args source relative_origin path kwargs)
        = t ++ EvLoadYaml s :: rest) ∧
     (∃ e,
        is_io_error e = true ∧
        load (with_spec_load_yaml st E) F args source relative_origin path
          kwargs
        = mkM (t ++ [EvLoadYaml s]) (Raise e))).
Proof.
  intros Hr Hs Hst. split.
  - intros Hk. rewrite load_component_unfold. cbn zeta.
    rewrite (bind_Return _ _ _ _ Hr), Hs, Hk. cbn. by rewrite app_nil_r.
  - intros F HF Hc.
    rewrite !load_wrapper, !call_load_common_binds by done.
    rewrite !(load_common_resolved _ _ source _ _ _ _ _ _ _ Hr). split.
    + cbn [trace]. edestruct pipeline_trace as (rest & -> & _).
      by exists rest.
    + assert (∃ e, is_io_error e = true ∧ spec_load_yaml st s = Raise e)
        as (e & He & Hread).
      { destruct s as [|b|z|str|p|xs|d|c attrs]; try discriminate Hs;
          try (eexists; split; [|reflexivity]; reflexivity).
        assert (str = "") as ->.
        { cbn in Hs. by destruct (String.eqb_spec str ""). }
        cbn. rewrite Hst. eexists; split; [|reflexivity]; reflexivity. }
      exists e. split; [done|]. unfold load_common.
      rewrite (bind_Return _ _ _ _ (resolve_source_resolved s)).
      unfold _try_load_yaml_dict. run.
      cbn [load_yaml with_spec_load_yaml]. by rewrite Hread.
Qed.

Lemma falsy_source_edge_witness :
  let st := {| files := ∅; streams := λ _, None |} in
  let e := ExOther "FileNotFoundError" "No such file or directory" in
  truthy (PyStr "") = false ∧
  files st !! "" = None ∧
  load_component Demo.world [] (PyStr "") PyNone PyNone ∅
  = mkM [] (Raise (ExValidationException missing_value_exception)) ∧
  load (with_spec_load_yaml st Demo.world) FJob [] (PyStr "") PyNone PyNone ∅
  = mkM ([] ++ [EvLoadYaml (PyStr "")]) (Raise e).
Proof.
  cbn zeta. split; [reflexivity|]. split; [reflexivity|].
  destruct (falsy_source_edge Demo.world
              {| files := ∅; streams := λ _, None |} [] (PyStr "") PyNone
              PyNone ∅ [] (PyStr "") eq_refl eq_refl (lookup_empty ""))
    as [Hcomponent Hothers].
  split; [by apply Hcomponent|]. reflexivity.
Defined.

(** * Further properties of the loaders *)

(** ** The paths through [load_common] *)

(** X1. A [relative_origin] that is given is used as it is: whatever the
    source, it is the [yaml_path] the entity builder receives, in a call
    whose keywords let the builder be reached. *)
Theorem explicit_origin_used E cls source path relative_origin args
    params_override kwargs t s d cls' type_str :
  is_none relative_origin = false →
  resolve_source source args path = mkM t (Return s) →
  load_yaml E s = Return (PyDict d) →
  _resolve_cls_and_type E cls (PyDict d) (or_empty_list params_override)
  = Return (cls', type_str) →
  builder_kwargs_clash kwargs = false →
  ∃ rest,
    trace (load_common E cls source path relative_origin args params_override
             kwargs)
    = t ++ EvLoadYaml s
        :: EvResolveCls cls (PyDict d) (or_empty_list params_override)
        :: EvLoad cls' (PyDict d) relative_origin
             (or_empty_list params_override) kwargs
        :: rest.
Proof.
  intros Ho Hr Hy Hc Hk.
  rewrite (load_common_reaches_load _ _ _ _ _ _ _ _ _ _ _ _ _ Hr Hy Hc Hk).
  cbn [trace].
  assert (derive_origin relative_origin s = relative_origin) as ->
    by (unfold derive_origin; by rewrite Ho).
  unfold _load_common_raising_marshmallow_error. run.
  repeat (step E; run); by eexists.
Qed.

Lemma explicit_origin_used_witness :
  is_none (PyStr "/work") = false ∧
  ∃ rest,
    trace (load_common Demo.world Job (PyStr "job.yml") PyNone (PyStr "/work")
             (Some []) PyNone ∅)
    = [] ++ EvLoadYaml (PyStr "job.yml")
        :: EvResolveCls Job (PyDict Demo.job_doc) (or_empty_list PyNone)
        :: EvLoad Job (PyDict Demo.job_doc) (PyStr "/work")
             (or_empty_list PyNone) ∅
        :: rest.
Proof.
  split; [reflexivity|].
  exact (explicit_origin_used Demo.world Job (PyStr "job.yml") PyNone
           (PyStr "/work") (Some []) PyNone ∅ [] (PyStr "job.yml")
           Demo.job_doc Job None eq_refl eq_refl eq_refl eq_refl eq_refl).
Defined.

(** X2. An exception of the YAML reader leaves [load_common] as it came,
    whatever its class, a [ValidationError] included: the trace ends with
    the read, and nothing is translated. *)
Theorem reader_error_propagates E cls source path relative_origin args
    params_override kwargs t s e :
  resolve_source source args path = mkM t (Return s) →
  load_yaml E s = Raise e →
  load_common E cls source path relative_origin args params_override kwargs
  = mkM (t ++ [EvLoadYaml s]) (Raise e).
Proof.
  intros Hr Hy.
  rewrite (load_common_resolved _ _ _ _ _ _ _ _ _ _ Hr).
  unfold load_common.
  rewrite (bind_Return _ _ _ _ (resolve_source_resolved s)).
  unfold _try_load_yaml_dict. run. by rewrite Hy.
Qed.

Lemma reader_error_propagates_witness :
  let e := ExOther "FileNotFoundError" "No such file or directory" in
  load_yaml Demo.world (PyStr "nowhere.yml") = Raise e ∧
  load_common Demo.world Job PyNone (PyStr "nowhere.yml") PyNone (Some [])
    PyNone ∅
  = mkM ([EvWarn deprecation_message "DeprecationWarning"]
           ++ [EvLoadYaml (PyStr "nowhere.yml")]) (Raise e).
Proof.
  cbn zeta. split; [reflexivity|].
  exact (reader_error_propagates Demo.world Job PyNone (PyStr "nowhere.yml")
           PyNone (Some []) PyNone ∅
           [EvWarn deprecation_message "DeprecationWarning"]
           (PyStr "nowhere.yml")
           (ExOther "FileNotFoundError" "No such file or directory")
           eq_refl eq_refl).
Defined.

(** X3. The type resolution runs outside the [try]: an exception it raises,
    a [ValidationError] included, leaves [load_common] as it came, for a
    class that supports structured validation as for any other, and the
    entity builder is not called. *)
Theorem resolver_error_propagates E cls source path relative_origin args
    params_override kwargs t s d e :
  resolve_source source args path = mkM t (Return s) →
  load_yaml E s = Return (PyDict d) →
  _resolve_cls_and_type E cls (PyDict d) (or_empty_list params_override)
  = Raise e →
  load_common E cls source path relative_origin args params_override kwargs
  = mkM (t ++ [EvLoadYaml s;
               EvResolveCls cls (PyDict d) (or_empty_list params_override)])
        (Raise e).
Proof.
  intros Hr Hy Hc.
  rewrite (load_common_resolved _ _ _ _ _ _ _ _ _ _ Hr).
  unfold load_common.
  rewrite (bind_Return _ _ _ _ (resolve_source_resolved s)).
  unfold _try_load_yaml_dict. run. rewrite Hy. run. by rewrite Hc.
Qed.

Lemma resolver_error_propagates_witness :
  let e :=
    ExValidationError
      (PyDict {[ "type" := PyStr "Missing data for required field." ]}) in
  issubclass_SchemaValidatableMixin Strict.world Job = true ∧
  load_common Strict.world Job (PyStr "braces.yml") PyNone PyNone (Some [])
    PyNone ∅
  = mkM ([] ++ [EvLoadYaml (PyStr "braces.yml");
                EvResolveCls Job (PyDict ∅) (or_empty_list PyNone)])
        (Raise e).
Proof.
  cbn zeta. split; [reflexivity|].
  exact (resolver_error_propagates Strict.world Job (PyStr "braces.yml")
           PyNone PyNone (Some []) PyNone ∅ [] (PyStr "braces.yml") ∅
           (ExValidationError
              (PyDict {[ "type" := PyStr "Missing data for required field." ]}))
           eq_refl eq_refl eq_refl).
Defined.

(** X4. When the builder returns, [load_common] returns its entity: the
    builder is called once, on the class the type resolution answered with
    and not on the class asked for, with the document as read, the origin
    and the override list. This is the call whose keywords let the builder
    be reached: none bears the name of a parameter the two inner calls
    already give. *)
Theorem load_common_returns_built_entity E cls source path relative_origin
    args params_override kwargs t s d cls' type_str entity :
  let origin := derive_origin relative_origin s in
  let po := or_empty_list params_override in
  resolve_source source args path = mkM t (Return s) →
  load_yaml E s = Return (PyDict d) →
  _resolve_cls_and_type E cls (PyDict d) po = Return (cls', type_str) →
  builder_kwargs_clash kwargs = false →
  _load E cls' (PyDict d) origin po kwargs = Return entity →
  load_common E cls source path relative_origin args params_override kwargs
  = mkM (t ++ [EvLoadYaml s; EvResolveCls cls (PyDict d) po;
               EvLoad cls' (PyDict d) origin po kwargs])
        (Return entity).
Proof.
  intros origin po Hr Hy Hc Hk Hl. subst origin po.
  rewrite (load_common_reaches_load _ _ _ _ _ _ _ _ _ _ _ _ _ Hr Hy Hc Hk).
  run. by rewrite Hl.
Qed.

Lemma load_common_returns_built_entity_witness :
  let entity := PyObj "CommandComponent" Demo.job_doc in
  _resolve_cls_and_type Demo.world Component (PyDict Demo.job_doc) (PyList [])
  = Return (CommandComponent, Some "command") ∧
  load_common Demo.world Component (PyStr "job.yml") PyNone PyNone (Some [])
    PyNone ∅
  = mkM ([] ++ [EvLoadYaml (PyStr "job.yml");
                EvResolveCls Component (PyDict Demo.job_doc) (PyList []);
                EvLoad CommandComponent (PyDict Demo.job_doc)
                  (PyStr "job.yml") (PyList []) ∅])
        (Return entity).
Proof.
  cbn zeta. split; [reflexivity|].
  exact (load_common_returns_built_entity Demo.world Component
           (PyStr "job.yml") PyNone PyNone (Some []) PyNone ∅ []
           (PyStr "job.yml") Demo.job_doc CommandComponent (Some "command")
           (PyObj "CommandComponent" Demo.job_doc)
           eq_refl eq_refl eq_refl eq_refl eq_refl).
Defined.

(** X5. Only a [ValidationError] of the builder is translated: any other
    exception it raises leaves [load_common] as it came, and no validation
    result is built, also for a class that supports structured
    validation. The builder is called when no keyword of the call bears the
    name of a parameter the two inner calls already give. *)
Theorem builder_error_propagates E cls source path relative_origin args
    params_override kwargs t s d cls' type_str e :
  let origin := derive_origin relative_origin s in
  let po := or_empty_list params_override in
  resolve_source source args path = mkM t (Return s) →
  load_yaml E s = Return (PyDict d) →
  _resolve_cls_and_type E cls (PyDict d) po = Return (cls', type_str) →
  builder_kwargs_clash kwargs = false →
  _load E cls' (PyDict d) origin po kwargs = Raise e →
  is_ValidationError e = false →
  load_common E cls source path relative_origin args params_override kwargs
  = mkM (t ++ [EvLoadYaml s; EvResolveCls cls (PyDict d) po;
               EvLoad cls' (PyDict d) origin po kwargs])
        (Raise e).
Proof.
  intros origin po Hr Hy Hc Hk Hl He. subst origin po.
  rewrite (load_common_reaches_load _ _ _ _ _ _ _ _ _ _ _ _ _ Hr Hy Hc Hk).
  run. rewrite Hl.
  by destruct e.
Qed.

Lemma builder_error_propagates_witness :
  let e := ExOther "TypeError" "unexpected keyword argument 'strict'" in
  let kwargs : gmap string pyval := {[ "strict" := PyBool true ]} in
  issubclass_SchemaValidatableMixin Strict.world Job = true ∧
  load_common Strict.world Job (PyStr "job.yml") PyNone PyNone (Some [])
    PyNone kwargs
  = mkM ([] ++ [EvLoadYaml (PyStr "job.yml");
                EvResolveCls Job (PyDict Demo.job_doc) (PyList []);
                EvLoad Job (PyDict Demo.job_doc) (PyStr "job.yml")
                  (PyList []) kwargs])
        (Raise e).
Proof.
  cbn zeta. split; [reflexivity|].
  exact (builder_error_propagates Strict.world Job (PyStr "job.yml") PyNone
           PyNone (Some []) PyNone {[ "strict" := PyBool true ]} []
           (PyStr "job.yml") Demo.job_doc Job (Some "command")
           (ExOther "TypeError" "unexpected keyword argument 'strict'")
           eq_refl eq_refl eq_refl eq_refl eq_refl eq_refl).
Defined.

(** X6. A document that parses to the empty mapping is not taken for an
    empty file: the check lets it through, and the type resolution is called
    with it. *)
Theorem empty_mapping_is_accepted E cls source path relative_origin args
    params_override kwargs t s :
  resolve_source source args path = mkM t (Return s) →
  load_yaml E s = Return (PyDict ∅) →
  ∃ rest,
    trace (load_common E cls source path relative_origin args params_override
             kwargs)
    = t ++ EvLoadYaml s
        :: EvResolveCls cls (PyDict ∅) (or_empty_list params_override)
        :: rest.
Proof.
  intros Hr Hy.
  rewrite (load_common_resolved _ _ _ _ _ _ _ _ _ _ Hr).
  unfold load_common.
  rewrite (bind_Return _ _ _ _ (resolve_source_resolved s)).
  unfold _try_load_yaml_dict, _load_common_raising_marshmallow_error.
  run. rewrite Hy. run.
  repeat (step E; run); by eexists.
Qed.

Lemma empty_mapping_is_accepted_witness :
  load_yaml Strict.world (PyStr "braces.yml") = Return (PyDict ∅) ∧
  ∃ rest,
    trace (load_common Strict.world Job (PyStr "braces.yml") PyNone PyNone
             (Some []) PyNone ∅)
    = [] ++ EvLoadYaml (PyStr "braces.yml")
        :: EvResolveCls Job (PyDict ∅) (or_empty_list PyNone)
        :: rest.
Proof.
  split; [reflexivity|].
  exact (empty_mapping_is_accepted Strict.world Job (PyStr "braces.yml")
           PyNone PyNone (Some []) PyNone ∅ [] (PyStr "braces.yml")
           eq_refl eq_refl).
Defined.

(** ** The wrappers *)

(** What the resolution can do: nothing, or warn and take [path]. *)
Lemma resolve_source_cases source args path t s :
  resolve_source source args path = mkM t (Return s) →
  t = [] ∨
  (t = [EvWarn deprecation_message "DeprecationWarning"] ∧ s = path ∧
   is_none source = true ∧ is_none path = false ∧
   (args = None ∨ args = Some [])).
Proof.
  unfold resolve_source.
  destruct (is_none source) eqn:Hs; [|intros [= <- _]; by left].
  destruct args as [[|a0 l]|]; try (intros [= <- _]; by left).
  all: destruct (is_none path) eqn:Hp; intros [= <- <-]; [by left|right];
    repeat split; auto.
Qed.

(** A source that is given needs no resolution. *)
Lemma resolve_source_given s args path :
  is_none s = false → resolve_source s args path = mkM [] (Return s).
Proof. by destruct s. Qed.

(** Once the source is given, [path] and [args] play no part. *)
Lemma call_load_common_given_source E cls s path ro args kwargs :
  is_none s = false →
  call_load_common E cls s path ro args kwargs
  = call_load_common E cls s PyNone ro [] kwargs.
Proof.
  intros Hs. unfold call_load_common.
  destruct (kwargs_clash kwargs); [done|]. unfold kwargs_pop.
  rewrite (load_common_resolved E cls s path ro (Some args) _ _ [] s
             (resolve_source_given s _ _ Hs)).
  by rewrite (load_common_resolved E cls s PyNone ro (Some []) _ _ [] s
                (resolve_source_given s _ _ Hs)).
Qed.

Lemma truthy_not_none v : truthy v = true → is_none v = false.
Proof. by destruct v. Qed.

(** X7. The first positional argument is a source in all but name: when it
    is not [None], [load_F(a0, ...)] is [load_F(source=a0)] event for event,
    so without the deprecation warning; the positional arguments after the
    first and the [path] keyword are ignored. *)
Theorem positional_source E F a0 more relative_origin path kwargs :
  is_none a0 = false →
  load E F (a0 :: more) PyNone relative_origin path kwargs
  = load E F [] a0 relative_origin PyNone kwargs.
Proof.
  intros Ha.
  destruct (is_component F) eqn:HF.
  - destruct F; try discriminate HF. cbn [load].
    rewrite !load_component_unfold. cbn zeta.
    rewrite (bind_Return _ _ [] a0) by done.
    rewrite (bind_Return _ _ _ _ (resolve_source_given a0 _ _ Ha)).
    destruct (truthy a0); [|done].
    by rewrite (call_load_common_given_source _ _ _ path _ (a0 :: more)).
  - rewrite !load_wrapper by done.
    unfold call_load_common. destruct (kwargs_clash kwargs); [done|].
    unfold kwargs_pop.
    rewrite (load_common_resolved E _ PyNone path _ (Some (a0 :: more)) _ _
               [] a0 eq_refl).
    by rewrite (load_common_resolved E _ a0 PyNone _ (Some []) _ _ [] a0
                  (resolve_source_given a0 _ _ Ha)).
Qed.

Lemma positional_source_witness :
  is_none (PyStr "job.yml") = false ∧
  load Demo.world FJob [PyStr "job.yml"; PyStr "more"] PyNone PyNone
    (PyStr "legacy.yml") ∅
  = load Demo.world FJob [] (PyStr "job.yml") PyNone PyNone ∅.
Proof.
  split; [reflexivity|].
  exact (positional_source Demo.world FJob (PyStr "job.yml") [PyStr "more"]
           PyNone (PyStr "legacy.yml") ∅ eq_refl).
Defined.

(** X8. A [source] that is given decides the call alone: the positional
    arguments and [path] are ignored, for every loader. *)
Theorem given_source_ignores_path_and_args E F args s relative_origin path
    kwargs :
  is_none s = false →
  load E F args s relative_origin path kwargs
  = load E F [] s relative_origin PyNone kwargs.
Proof.
  intros Hs.
  destruct (is_component F) eqn:HF.
  - destruct F; try discriminate HF. cbn [load].
    rewrite !load_component_unfold. cbn zeta.
    rewrite !(bind_Return _ _ _ _ (resolve_source_given s _ _ Hs)).
    destruct (truthy s); [|done].
    by rewrite (call_load_common_given_source _ _ _ path _ args).
  - rewrite !load_wrapper by done.
    by apply call_load_common_given_source.
Qed.

Lemma given_source_ignores_path_and_args_witness :
  is_none (PyStr "job.yml") = false ∧
  load Demo.world FComponent [PyStr "other.yml"] (PyStr "job.yml") PyNone
    (PyStr "legacy.yml") ∅
  = load Demo.world FComponent [] (PyStr "job.yml") PyNone PyNone ∅.
Proof.
  split; [reflexivity|].
  exact (given_source_ignores_path_and_args Demo.world FComponent
           [PyStr "other.yml"] (PyStr "job.yml") PyNone (PyStr "legacy.yml") ∅
           eq_refl).
Defined.

(** After its read, the pipeline reads nothing more. *)
Lemma pipeline_reads_once E cls s ro po kw :
  ∃ rest,
    trace (load_common E cls s PyNone ro None po kw) = EvLoadYaml s :: rest ∧
    List.filter is_warning rest = [] ∧
    List.filter is_load_yaml rest = [] ∧
    List.filter is_components_get rest = [].
Proof.
  unfold load_common.
  rewrite (bind_Return _ _ _ _ (resolve_source_resolved s)).
  unfold _try_load_yaml_dict, _load_common_raising_marshmallow_error.
  repeat (run; step E); run;
    (eexists; split; [reflexivity|repeat split; reflexivity]).
Qed.

(** The events of a wrapper's call of [load_common]. *)
Lemma call_load_common_trace E cls source path ro args kwargs t s :
  resolve_source source (Some args) path = mkM t (Return s) →
  trace (call_load_common E cls source path ro args kwargs) = [] ∨
  ∃ rest,
    trace (call_load_common E cls source path ro args kwargs)
    = t ++ EvLoadYaml s :: rest ∧
    List.filter is_warning rest = [] ∧
    List.filter is_load_yaml rest = [] ∧
    List.filter is_components_get rest = [].
Proof.
  intros Hr. unfold call_load_common.
  destruct (kwargs_clash kwargs); [by left|right]. unfold kwargs_pop.
  rewrite (load_common_resolved _ _ _ _ _ _ _ _ _ _ Hr). cbn [trace].
  edestruct pipeline_reads_once as (rest & -> & ?). by exists rest.
Qed.

(** X9. Every loader warns at most once per call, and the warning, when
    there is one, is the first event of the call: it is emitted only when
    [source] is [None], no positional argument is given and [path] is not
    [None]. In particular [load_component], which resolves the source
    before [load_common] does so again, does not warn twice. *)
Theorem at_most_one_warning E F args source relative_origin path kwargs :
  ∃ rest,
    List.filter is_warning rest = [] ∧
    (trace (load E F args source relative_origin path kwargs) = rest ∨
     trace (load E F args source relative_origin path kwargs)
     = EvWarn deprecation_message "DeprecationWarning" :: rest ∧
     is_none source = true ∧ args = [] ∧ is_none path = false).
Proof.
  destruct (resolve_source_total source (Some args) path) as (t & s & Hr).
  destruct (is_component F) eqn:HF.
  - destruct F; try discriminate HF. cbn [load].
    rewrite load_component_unfold. cbn zeta.
    rewrite (bind_Return _ _ _ _ Hr). cbn [trace].
    set (branch := if truthy s then _ else _).
    assert (List.filter is_warning (trace branch) = []) as Hb.
    { subst branch. destruct (truthy s) eqn:Hs.
      - pose proof (resolve_source_given s (Some args) path
                      (truthy_not_none _ Hs)) as Hr'.
        destruct (call_load_common_trace E Component s path relative_origin
                    args (delete "version" (delete "name"
                           (delete "client" kwargs))) [] s Hr')
          as [->|(rest & -> & Hw & _)]; [done|].
        cbn. done.
      - destruct (_ && _); [|done].
        by destruct (components_get E _ _ _). }
    exists (trace branch). split; [done|].
    destruct (resolve_source_cases _ _ _ _ _ Hr)
      as [->|(-> & _ & Hs & Hp & [Ha|Ha])]; [by left| |].
    + discriminate Ha.
    + right. injection Ha as ->. done.
  - rewrite load_wrapper by done.
    destruct (call_load_common_trace E (family_class F) source path
                relative_origin args kwargs t s Hr)
      as [->|(rest & -> & Hw & _)]; [exists []; by split; [|left]|].
    exists (EvLoadYaml s :: rest). split; [done|].
    destruct (resolve_source_cases _ _ _ _ _ Hr)
      as [->|(-> & _ & Hs & Hp & [Ha|Ha])]; [by left| |].
    + discriminate Ha.
    + right. injection Ha as ->. done.
Qed.

(** X10. A call reaches the outside world at most once for its input: it
    reads YAML at most once and asks the remote client at most once, and
    never does both. *)
Theorem one_read_or_one_fetch E F args source relative_origin path kwargs :
  (List.length
     (List.filter (λ ev, is_load_yaml ev || is_components_get ev)
        (trace (load E F args source relative_origin path kwargs))) ≤ 1)%nat.
Proof.
  destruct (resolve_source_total source (Some args) path) as (t & s & Hr).
  assert (List.filter (λ ev, is_load_yaml ev || is_components_get ev) t = [])
    as Ht.
  { by destruct (resolve_source_cases _ _ _ _ _ Hr) as [->|(-> & _)]. }
  assert (∀ rest, List.filter is_load_yaml rest = [] →
            List.filter is_components_get rest = [] →
            List.filter (λ ev, is_load_yaml ev || is_components_get ev) rest
            = []) as Hor.
  { induction rest as [|ev rest IH]; [done|]. cbn.
    destruct (is_load_yaml ev), (is_components_get ev); cbn; done. }
  assert (∀ cls src kw',
            resolve_source src (Some args) path = mkM t (Return s) →
            (List.length
               (List.filter (λ ev, is_load_yaml ev || is_components_get ev)
                  (trace (call_load_common E cls src path relative_origin
                            args kw'))) ≤ 1)%nat) as Hcall.
  { intros cls src kw' Hsrc.
    destruct (call_load_common_trace E cls src path relative_origin args
                kw' t s Hsrc) as [->|(rest & -> & _ & Hy & Hg)];
      [cbn; lia|].
    rewrite List.filter_app, Ht. cbn. by rewrite Hor. }
  destruct (is_component F) eqn:HF.
  - destruct F; try discriminate HF. cbn [load].
    rewrite load_component_unfold. cbn zeta.
    rewrite (bind_Return _ _ _ _ Hr). cbn [trace].
    rewrite List.filter_app, Ht. cbn [app].
    destruct (truthy s) eqn:Hs.
    + pose proof (resolve_source_given s (Some args) path
                    (truthy_not_none _ Hs)) as Hr'.
      destruct (call_load_common_trace E Component s path relative_origin
                  args (delete "version" (delete "name"
                         (delete "client" kwargs))) [] s Hr')
        as [->|(rest & -> & _ & Hy & Hg)]; [cbn; lia|].
      cbn. by rewrite Hor.
    + destruct (_ && _); [|cbn; lia].
      destruct (components_get E _ _ _); cbn; lia.
  - rewrite load_wrapper by done. by apply (Hcall _ _ _ Hr).
Qed.

(** X11. The remote mode of [load_component] opens for any resolved source
    that is false, [None] or not: with [client], [name] and [version] all
    true the component is fetched, after whatever the resolution did, so a
    call with an empty [path] warns of the deprecation and then fetches. *)
Theorem load_component_remote_for_falsy_source E args source relative_origin
    path (kwargs : gmap string pyval) t s client name version :
  resolve_source source (Some args) path = mkM t (Return s) →
  truthy s = false →
  kwargs !! "client" = Some client →
  kwargs !! "name" = Some name →
  kwargs !! "version" = Some version →
  truthy client = true → truthy name = true → truthy version = true →
  load_component E args source relative_origin path kwargs
  = mkM (t ++ [EvComponentsGet client name version])
      (components_get E client name version).
Proof.
  intros Hr Hs Hc Hn Hv Tc Tn Tv. rewrite load_component_unfold.
  rewrite Hc, Hn, Hv. cbn [default from_option]. unfold id. cbn zeta.
  rewrite (bind_Return _ _ _ _ Hr), Hs, Tc, Tn, Tv. cbn [andb].
  reflexivity.
Qed.

Lemma load_component_remote_for_falsy_source_witness :
  let client := PyObj "MLClient" ∅ in
  let kwargs : gmap string pyval :=
    {[ "client" := client; "name" := PyStr "x"; "version" := PyInt 1 ]} in
  truthy (PyStr "") = false ∧
  load_component Demo.world [] PyNone PyNone (PyStr "") kwargs
  = mkM ([EvWarn deprecation_message "DeprecationWarning"]
           ++ [EvComponentsGet client (PyStr "x") (PyInt 1)])
      (components_get Demo.world client (PyStr "x") (PyInt 1)).
Proof.
  cbn zeta. split; [reflexivity|].
  exact (load_component_remote_for_falsy_source Demo.world [] PyNone PyNone
           (PyStr "")
           {[ "client" := PyObj "MLClient" ∅; "name" := PyStr "x";
              "version" := PyInt 1 ]}
           [EvWarn deprecation_message "DeprecationWarning"] (PyStr "")
           (PyObj "MLClient" ∅) (PyStr "x") (PyInt 1)
           eq_refl eq_refl eq_refl eq_refl eq_refl eq_refl eq_refl eq_refl).
Defined.

(** The builder is called with the keywords [load_common] was called
    with. *)
Lemma load_common_forwards_kwargs E cls source path ro args po kw :
  Forall (load_kwargs_are kw)
    (trace (load_common E cls source path ro args po kw)).
Proof.
  destruct (resolve_source_total source args path) as (t & s & Hr).
  rewrite (load_common_resolved _ _ _ _ _ _ _ _ _ _ Hr). cbn [trace].
  apply Forall_app. split.
  - revert Hr. unfold resolve_source.
    destruct (is_none source); [|intros [= <- _]; constructor].
    destruct args as [[|a0 l]|]; try (intros [= <- _]; constructor).
    all: destruct (is_none path); intros [= <- _]; repeat constructor.
  - unfold load_common.
    rewrite (bind_Return _ _ _ _ (resolve_source_resolved s)).
    unfold _try_load_yaml_dict, _load_common_raising_marshmallow_error.
    repeat (run; step E); run; repeat constructor.
Qed.

(** X12. What reaches the entity builder as [**kwargs]: the keywords of the
    call without [params_override], which travels as a parameter of its
    own, and, for [load_component] only, without [client], [name] and
    [version]. The other loaders pass these three on to the builder. *)
Theorem builder_receives_remaining_kwargs E F args source relative_origin
    path (kwargs : gmap string pyval) :
  Forall (load_kwargs_are (forwarded_kwargs F kwargs))
    (trace (load E F args source relative_origin path kwargs)).
Proof.
  assert (∀ cls src kw,
            Forall (load_kwargs_are (delete "params_override" kw))
              (trace (call_load_common E cls src path relative_origin args
                        kw))) as Hcall.
  { intros cls src kw. unfold call_load_common.
    destruct (kwargs_clash kw); [constructor|].
    unfold kwargs_pop. apply load_common_forwards_kwargs. }
  unfold forwarded_kwargs.
  destruct (is_component F) eqn:HF.
  - destruct F; try discriminate HF. cbn [load].
    rewrite load_component_unfold. cbn zeta.
    destruct (resolve_source_total source (Some args) path) as (t & s & Hr).
    rewrite (bind_Return _ _ _ _ Hr). cbn [trace].
    apply Forall_app. split.
    + destruct (resolve_source_cases _ _ _ _ _ Hr) as [->|(-> & _)];
        repeat constructor.
    + destruct (truthy s); [apply Hcall|].
      destruct (_ && _); repeat constructor.
  - rewrite load_wrapper by done. apply Hcall.
Qed.

(** X13. A [params_override] that is false in Python's sense ([None], the
    empty list) is the same as none at all: the type resolution and the
    builder receive the empty list either way, and the call is the same
    event for event. *)
Theorem falsy_params_override_is_absent E F args source relative_origin path
    (kwargs : gmap string pyval) v :
  kwargs !! "params_override" = None →
  truthy v = false →
  load E F args source relative_origin path
    (<["params_override" := v]> kwargs)
  = load E F args source relative_origin path kwargs.
Proof.
  intros Hk Hv.
  assert (∀ cls src (kw : gmap string pyval),
            kw !! "params_override" = None →
            call_load_common E cls src path relative_origin args
              (<["params_override" := v]> kw)
            = call_load_common E cls src path relative_origin args kw)
    as Hcall.
  { intros cls src kw Hkw. unfold call_load_common.
    assert (kwargs_clash (<["params_override" := v]> kw) = kwargs_clash kw)
      as ->.
    { unfold kwargs_clash, load_common_positional. cbn [existsb].
      by rewrite !lookup_insert_ne. }
    destruct (kwargs_clash kw); [done|]. unfold kwargs_pop.
    rewrite lookup_insert_eq, delete_insert_eq, Hkw. cbn [default from_option].
    unfold id. rewrite (delete_id kw) by done.
    unfold load_common, or_empty_list. by rewrite Hv. }
  destruct (is_component F) eqn:HF.
  - destruct F; try discriminate HF. cbn [load].
    rewrite !load_component_unfold. cbn zeta.
    rewrite !lookup_insert_ne by done.
    rewrite !(delete_insert_ne kwargs) by done.
    rewrite !(delete_insert_ne (delete "client" kwargs)) by done.
    rewrite !(delete_insert_ne (delete "name" (delete "client" kwargs)))
      by done.
    destruct (resolve_source_total source (Some args) path) as (t & s & Hr).
    rewrite !(bind_Return _ _ _ _ Hr).
    destruct (truthy s); [|done].
    rewrite Hcall; [done|]. by rewrite !lookup_delete_ne.
  - rewrite !load_wrapper by done. by apply Hcall.
Qed.

Lemma falsy_params_override_is_absent_witness :
  (∅ : gmap string pyval) !! "params_override" = None ∧
  truthy (PyList []) = false ∧
  load Demo.world FJob [] (PyStr "job.yml") PyNone PyNone
    (<["params_override" := PyList []]> ∅)
  = load Demo.world FJob [] (PyStr "job.yml") PyNone PyNone ∅.
Proof.
  split; [reflexivity|]. split; [reflexivity|].
  exact (falsy_params_override_is_absent Demo.world FJob [] (PyStr "job.yml")
           PyNone PyNone ∅ (PyList []) eq_refl eq_refl).
Defined.

(** X18. A keyword of the call that bears the name of a parameter the two
    inner calls already give ([yaml_dict] for the call of
    [_load_common_raising_marshmallow_error], [data] or [yaml_path] for
    that of [cls._load]) makes [load_common] raise [TypeError] after the
    document is read and the class resolved: the builder is not called,
    and [except ValidationError] does not catch the error. *)
Theorem builder_keyword_clash_raises_TypeError E cls source path
    relative_origin args params_override kwargs t s d cls' type_str :
  resolve_source source args path = mkM t (Return s) →
  load_yaml E s = Return (PyDict d) →
  _resolve_cls_and_type E cls (PyDict d) (or_empty_list params_override)
  = Return (cls', type_str) →
  builder_kwargs_clash kwargs = true →
  ∃ msg,
    load_common E cls source path relative_origin args params_override kwargs
    = mkM (t ++ [EvLoadYaml s;
                 EvResolveCls cls (PyDict d)
                   (or_empty_list params_override)])
          (Raise (ExOther "TypeError" msg)).
Proof.
  intros Hr Hy Hc Hk.
  rewrite (load_common_resolved _ _ _ _ _ _ _ _ _ _ Hr).
  unfold load_common.
  rewrite (bind_Return _ _ _ _ (resolve_source_resolved s)).
  unfold _try_load_yaml_dict. run. rewrite Hy. run. rewrite Hc. run.
  unfold builder_kwargs_clash in Hk.
  destruct (keyword_clash marshmallow_error_positional kwargs); run;
    [by eexists|].
  cbn [orb] in Hk. rewrite Hk. run. by eexists.
Qed.

Lemma builder_keyword_clash_raises_TypeError_witness :
  let kwargs : gmap string pyval := {[ "yaml_dict" := PyInt 1 ]} in
  kwargs_clash kwargs = false ∧
  builder_kwargs_clash kwargs = true ∧
  ∃ msg,
    load_common Demo.world Job (PyStr "job.yml") PyNone PyNone (Some [])
      PyNone kwargs
    = mkM ([] ++ [EvLoadYaml (PyStr "job.yml");
                  EvResolveCls Job (PyDict Demo.job_doc)
                    (or_empty_list PyNone)])
          (Raise (ExOther "TypeError" msg)).
Proof.
  cbn zeta. split; [reflexivity|]. split; [reflexivity|].
  exact (builder_keyword_clash_raises_TypeError Demo.world Job
           (PyStr "job.yml") PyNone PyNone (Some []) PyNone
           {[ "yaml_dict" := PyInt 1 ]} [] (PyStr "job.yml") Demo.job_doc Job
           None eq_refl eq_refl eq_refl eq_refl).
Defined.

(** * Properties of the lazy transport attributes *)

Module TransportFacts.
Import Transport.

Lemma elem_of_all name :
  name ∈ __all__ ↔
  name = "PyodideTransport" ∨ name = "HttpXTransport" ∨
  name = "AsyncHttpXTransport" ∨ name = "Urllib3Transport".
Proof. unfold __all__. rewrite !elem_of_cons, elem_of_nil. tauto. Qed.

(** X14. Every name [__dir__] lists is served by [__getattr__]: the access
    attempts one import, of a class of that very name, and when the import
    succeeds the class it gave is the answer. *)
Theorem listed_name_is_imported import_from name :
  name ∈ __dir__ →
  ∃ module,
    attempted (__getattr__ import_from name) = [(module, name)] ∧
    ∀ cls, import_from module name = Imported cls →
           outcome_of (__getattr__ import_from name) = Found cls.
Proof.
  intros H. apply elem_of_all in H.
  destruct H as [-> | [-> | [-> | ->]]]; cbn; eexists; (split; [reflexivity|]);
    by intros cls ->.
Qed.

Lemma listed_name_is_imported_witness :
  ("HttpXTransport" ∈ __dir__) ∧
  ∃ module,
    attempted (__getattr__ demo_import "HttpXTransport")
    = [(module, "HttpXTransport")] ∧
    ∀ cls, demo_import module "HttpXTransport" = Imported cls →
           outcome_of (__getattr__ demo_import "HttpXTransport") = Found cls.
Proof.
  assert ("HttpXTransport" ∈ __dir__) as H
    by (apply elem_of_all; right; left; reflexivity).
  split; [exact H|].
  exact (listed_name_is_imported demo_import "HttpXTransport" H).
Defined.

(** X15. A name [__dir__] does not list raises [AttributeError] with the
    module's message, which ends in the name, and no import is attempted;
    the comparison is exact, so a name in another case is such a name. *)
Theorem unlisted_name_raises_AttributeError import_from name :
  name ∉ __dir__ →
  __getattr__ import_from name
  = mkAccess []
      (Raised
         (AttributeError
            ("module 'azure.core.experimental.transport' has no attribute "
             +:+ name))).
Proof.
  intros H. unfold __getattr__.
  repeat match goal with
  | |- context [String.eqb name ?s] =>
      destruct (String.eqb_spec name s) as [->|_];
        [exfalso; apply H, elem_of_all; tauto|]
  end.
  reflexivity.
Qed.

Lemma unlisted_name_raises_AttributeError_witness :
  ("httpxtransport" ∉ __dir__) ∧
  __getattr__ demo_import "httpxtransport"
  = mkAccess []
      (Raised
         (AttributeError
            "module 'azure.core.experimental.transport' has no attribute httpxtransport")).
Proof.
  assert ("httpxtransport" ∉ __dir__) as H.
  { intros H. apply elem_of_all in H.
    destruct H as [H|[H|[H|H]]]; discriminate H. }
  split; [exact H|].
  exact (unlisted_name_raises_AttributeError demo_import "httpxtransport" H).
Defined.

(** X16. When the import of a listed class raises [ImportError], the access
    raises a new [ImportError] that says which package is not installed,
    pyodide for [PyodideTransport], urllib3 for [Urllib3Transport] and
    httpx for the two httpx transports, and that keeps the original error
    as its cause. *)
Theorem missing_package_is_named import_from name module msg cause :
  attempted (__getattr__ import_from name) = [(module, name)] →
  import_from module name = ImportRaises (ImportError msg cause) →
  outcome_of (__getattr__ import_from name)
  = Raised
      (ImportError
         ((if String.eqb name "PyodideTransport" then "pyodide"
           else if String.eqb name "Urllib3Transport" then "urllib3"
           else "httpx") +:+ " package is not installed")
         (Some (ImportError msg cause))).
Proof.
  intros Ha Hi. unfold __getattr__ in *.
  repeat match goal with
  | |- context [String.eqb name ?s] =>
      destruct (String.eqb_spec name s) as [->|_];
        [cbn in *; injection Ha as <-; by rewrite Hi|]
  end.
  discriminate Ha.
Qed.

Lemma missing_package_is_named_witness :
  let err := ImportError "No module named 'pyodide'" None in
  demo_import "._pyodide" "PyodideTransport" = ImportRaises err ∧
  outcome_of (__getattr__ demo_import "PyodideTransport")
  = Raised (ImportError "pyodide package is not installed" (Some err)).
Proof.
  cbn zeta. split; [reflexivity|].
  exact (missing_package_is_named demo_import "PyodideTransport" "._pyodide"
           "No module named 'pyodide'" None eq_refl eq_refl).
Defined.

(** X17. Only [ImportError] is explained: any other exception the import of
    a listed class raises leaves [__getattr__] as it came. *)
Theorem other_import_failure_propagates import_from name module err :
  attempted (__getattr__ import_from name) = [(module, name)] →
  import_from module name = ImportRaises err →
  is_ImportError err = false →
  outcome_of (__getattr__ import_from name) = Raised err.
Proof.
  intros Ha Hi He. unfold __getattr__ in *.
  repeat match goal with
  | |- context [String.eqb name ?s] =>
      destruct (String.eqb_spec name s) as [->|_];
        [cbn in *; injection Ha as <-; rewrite Hi; by destruct err|]
  end.
  discriminate Ha.
Qed.

Lemma other_import_failure_propagates_witness :
  let err := OtherException "RuntimeError" "urllib3 is too old" in
  demo_import "._urllib3" "Urllib3Transport" = ImportRaises err ∧
  outcome_of (__getattr__ demo_import "Urllib3Transport") = Raised err.
Proof.
  cbn zeta. split; [reflexivity|].
  exact (other_import_failure_propagates demo_import "Urllib3Transport"
           "._urllib3" (OtherException "RuntimeError" "urllib3 is too old")
           eq_refl eq_refl eq_refl).
Defined.

End TransportFacts.
